(** * ingest_csv.py: the expenditure ingestion pipeline

    A shallow embedding of [src/app/ingest_csv.py] and the properties of
    its header normalizer, value normalizer, record builder, loader and
    batch driver.

    The module only loads under Python 3: line 136 holds non-ASCII
    characters and the file declares no source encoding (a syntax error
    for Python 2), [open] is called with [newline=''] and [str.isnumeric]
    is used on a plain [str].  The embedding therefore follows the
    Python 3 semantics of the built-ins the code calls. *)

From Stdlib Require Import ZArith NArith Lia Ascii String SpecFloat.
From stdpp Require Import base tactics option list numbers.

Set Default Proof Using "Type".

(* ================================================================== *)
(** ** Python values *)
(* ================================================================== *)

(** A [str] is a sequence of Unicode code points. *)
Definition char := N.
Definition str := list char.

(** String and character literals of the source, written with Rocq's. *)
Definition chr (a : ascii) : char := N_of_ascii a.
Definition py (s : string) : str := chr <$> list_ascii_of_string s.

(** The objects the code passes where more than one type can occur. *)
Inductive pyobj :=
| PyNone
| PyStr (s : str)
| PyList (l : list str).

(** The exceptions that can travel through the pipeline. *)
Inductive exn :=
| AttributeError
| IndexError
| KeyError (key : str)
| TypeError
| ValueError
| FileNotFoundError
| PermissionError
| IsADirectoryError
| UnicodeDecodeError
| OperationalError (msg : str)
| SystemExit (code : str).

Inductive outcome (A : Type) :=
| Ok (a : A)
| Raise (e : exn).
Arguments Ok {A} a.
Arguments Raise {A} e.

Definition obind {A B} (m : outcome A) (f : A -> outcome B) : outcome B :=
  match m with
  | Ok a => f a
  | Raise e => Raise e
  end.

Notation "'let!' x ':=' m 'in' k" := (obind m (fun x => k))
  (at level 10, x name, m at level 100, k at level 200).

(* ================================================================== *)
(** ** Characters *)
(* ================================================================== *)

(** What the interpreter reads from the Unicode character database for
    code points outside ASCII.  The pipeline's code has no copy of these
    tables; every definition below consults them only for a code point
    of 128 or more, so that the behaviour on ASCII text is fixed here. *)
Record unicode_db := {
  ucd_isspace : char -> bool;          (* str.isspace, str.split() *)
  ucd_isdigit : char -> bool;          (* str.isdigit *)
  ucd_isnumeric : char -> bool;        (* str.isnumeric *)
  ucd_decimal : char -> option N;      (* decimal digit value, if any *)
  ucd_isprintable : char -> bool;      (* repr() *)
  ucd_ascii_fold : char -> option char;(* the ASCII lower-case letter the
                                          code point equals when case is
                                          ignored (re.IGNORECASE) *)
  ucd_lower : char -> str;             (* str.lower(), one character *)
  ucd_title : str -> str               (* str.title() of a string that
                                          has a non-ASCII character *)
}.

Definition is_ascii (c : char) : bool := (c <? 128)%N.
Definition ascii_digit (c : char) : bool := (48 <=? c)%N && (c <=? 57)%N.
Definition ascii_upper (c : char) : bool := (65 <=? c)%N && (c <=? 90)%N.
Definition ascii_lower (c : char) : bool := (97 <=? c)%N && (c <=? 122)%N.
Definition ascii_alpha (c : char) : bool := ascii_upper c || ascii_lower c.
Definition ascii_tolower (c : char) : char :=
  if ascii_upper c then (c + 32)%N else c.
Definition ascii_toupper (c : char) : char :=
  if ascii_lower c then (c - 32)%N else c.

(** [_Py_ascii_whitespace]: TAB, LF, VT, FF, CR, FS, GS, RS, US, SPACE. *)
Definition ascii_space (c : char) : bool :=
  ((9 <=? c)%N && (c <=? 13)%N) || ((28 <=? c)%N && (c <=? 31)%N) || (c =? 32)%N.

(** [Py_ISSPACE]: the C-locale [isspace] used by the float parser. *)
Definition c_isspace (c : char) : bool :=
  ((9 <=? c)%N && (c <=? 13)%N) || (c =? 32)%N.

(** The maximal runs of characters outside the class [sp]. *)
Fixpoint split_runs (sp : char -> bool) (s : str) : list str :=
  match s with
  | [] => []
  | c :: s' =>
      if sp c then split_runs sp s'
      else match s' with
           | [] => [[c]]
           | d :: _ =>
               if sp d then [c] :: split_runs sp s'
               else match split_runs sp s' with
                    | w :: ws => (c :: w) :: ws
                    | [] => [[c]]
                    end
           end
  end.

(** [s.title()] on ASCII text: a letter is upper-cased at the start of a
    run of letters and lower-cased inside it. *)
Fixpoint ascii_title (previous_is_cased : bool) (s : str) : str :=
  match s with
  | [] => []
  | c :: s' =>
      (if previous_is_cased then ascii_tolower c else ascii_toupper c)
        :: ascii_title (ascii_alpha c) s'
  end.

Section Strings.
Context (U : unicode_db).

Definition isspace_char (c : char) : bool :=
  if is_ascii c then ascii_space c else ucd_isspace U c.
Definition isdigit_char (c : char) : bool :=
  if is_ascii c then ascii_digit c else ucd_isdigit U c.
Definition isnumeric_char (c : char) : bool :=
  if is_ascii c then ascii_digit c else ucd_isnumeric U c.
Definition decimal_char (c : char) : option N :=
  if is_ascii c then (if ascii_digit c then Some (c - 48)%N else None)
  else ucd_decimal U c.

(** [s.isdigit()], [s.isnumeric()]: at least one character, all of
    them in the class. *)
Definition str_isdigit (s : str) : bool :=
  match s with [] => false | _ => forallb isdigit_char s end.
Definition str_isnumeric (s : str) : bool :=
  match s with [] => false | _ => forallb isnumeric_char s end.

(** [s.split()]: the maximal runs of non-whitespace characters. *)
Definition str_split (s : str) : list str := split_runs isspace_char s.

(** [s.lower()]. *)
Definition str_lower (s : str) : str :=
  c ← s; if is_ascii c then [ascii_tolower c] else ucd_lower U c.

(** [s.title()]. *)
Definition str_title (s : str) : str :=
  if forallb is_ascii s then ascii_title false s else ucd_title U s.
End Strings.

(** [s.split(sep)] for a separator of one character. *)
Fixpoint str_split_on (sep : char) (s : str) : list str :=
  match s with
  | [] => [[]]
  | c :: s' =>
      if (c =? sep)%N then [] :: str_split_on sep s'
      else match str_split_on sep s' with
           | w :: ws => (c :: w) :: ws
           | [] => [[c]]
           end
  end.

(** [sep.join(l)]. *)
Fixpoint str_join (sep : str) (l : list str) : str :=
  match l with
  | [] => []
  | [w] => w
  | w :: ws => w ++ sep ++ str_join sep ws
  end.

(** [l[-1]]. *)
Definition list_last_item {A} (l : list A) : outcome A :=
  match list.last l with
  | Some x => Ok x
  | None => Raise IndexError
  end.

(** [l[i]] for [i >= 0]. *)
Definition list_item {A} (l : list A) (i : nat) : outcome A :=
  match l !! i with
  | Some x => Ok x
  | None => Raise IndexError
  end.

(** [s.translate(...)].  In Python 3 [str.translate] takes exactly one
    argument, the table; the characters of [self] are looked up in it by
    ordinal, and an ordinal the table has no entry for is kept. *)
Definition translate_char (table : pyobj) (c : char) : outcome str :=
  match table with
  | PyNone => Raise TypeError
  | PyStr t => match t !! N.to_nat c with
               | Some r => Ok [r]
               | None => Ok [c]
               end
  | PyList t => match t !! N.to_nat c with
                | Some r => Ok r
                | None => Ok [c]
                end
  end.

Fixpoint translate_table (self : str) (table : pyobj) : outcome str :=
  match self with
  | [] => Ok []
  | c :: s' =>
      let! r := translate_char table c in
      let! rs := translate_table s' table in
      Ok (r ++ rs)
  end.

Definition str_translate (self : str) (args : list pyobj) : outcome str :=
  match args with
  | [table] => translate_table self table
  | _ => Raise TypeError
  end.

(* ================================================================== *)
(** ** datetime.strptime(value, '%B-%d-%Y') *)
(* ================================================================== *)

(** A [datetime] whose time of day is midnight, as [strptime] returns
    for a format without time directives. *)
Record datetime := { dt_year : N; dt_month : N; dt_day : N }.

Definition is_leap (y : N) : bool :=
  ((y mod 4 =? 0) && (negb (y mod 100 =? 0) || (y mod 400 =? 0)))%N.

Definition days_in_month (y m : N) : N :=
  match m with
  | 2 => if is_leap y then 29 else 28
  | 4 | 6 | 9 | 11 => 30
  | _ => 31
  end%N.

(** The range check of the [datetime] constructor ([MINYEAR] is 1). *)
Definition valid_date (y m d : N) : bool :=
  ((1 <=? y) && (y <=? 9999) && (1 <=? m) && (m <=? 12) &&
   (1 <=? d) && (d <=? days_in_month y m))%N.

(** [LocaleTime.f_month] of the C and English locales: the lower-cased
    full month names, with the empty name at index 0. *)
Definition f_month : list str :=
  [] :: (py <$> ["january"; "february"; "march"; "april"; "may"; "june";
                 "july"; "august"; "september"; "october"; "november";
                 "december"]%string).

(** The alternation [strptime] compiles [%B] to: the month names, longest
    first. *)
Definition re_B_names : list str :=
  py <$> ["september"; "february"; "november"; "december"; "january";
          "october"; "august"; "march"; "april"; "june"; "july";
          "may"]%string.

(** [l.index(x)]. *)
Fixpoint list_index {A} `{EqDecision A} (x : A) (l : list A) : option nat :=
  match l with
  | [] => None
  | y :: l' => if decide (x = y) then Some 0 else S <$> list_index x l'
  end.

Section Strptime.
Context (U : unicode_db).

(** A pattern letter (lower case, ASCII) against an input character
    under [re.IGNORECASE]. *)
Definition ci_eq (p c : char) : bool :=
  if is_ascii c then (ascii_tolower c =? p)%N
  else bool_decide (ucd_ascii_fold U c = Some p).

(** Each matcher returns the ways its pattern matches a prefix of the
    input, in the regular expression's order of preference, as pairs
    of the matched text and the rest of the input. *)
Fixpoint re_literal_ci (pat s : str) : list (str * str) :=
  match pat, s with
  | [], _ => [([], s)]
  | p :: pat', c :: s' =>
      if ci_eq p c
      then '(t, r) ← re_literal_ci pat' s'; [(c :: t, r)]
      else []
  | _ :: _, [] => []
  end.

Definition re_char (c : char) (s : str) : list (str * str) :=
  match s with
  | c' :: r => if (c' =? c)%N then [([c'], r)] else []
  | [] => []
  end.

(** [[lo-hi]] for ASCII digits [lo], [hi]. *)
Definition re_range (lo hi : char) (s : str) : list (str * str) :=
  match s with
  | c :: r => if (lo <=? c)%N && (c <=? hi)%N then [([c], r)] else []
  | [] => []
  end.

(** [\d]: any Unicode decimal digit. *)
Definition re_digit (s : str) : list (str * str) :=
  match s with
  | c :: r => if decimal_char U c is Some _ then [([c], r)] else []
  | [] => []
  end.

Definition re_seq (a b : str -> list (str * str)) (s : str)
  : list (str * str) :=
  '(t1, r1) ← a s; '(t2, r2) ← b r1; [(t1 ++ t2, r2)].

(** [(?P<B>september|february|...)] *)
Definition re_B (s : str) : list (str * str) :=
  name ← re_B_names; re_literal_ci name s.

(** [(?P<d>3[0-1]|[1-2]\d|0[1-9]|[1-9]| [1-9])] *)
Definition re_d (s : str) : list (str * str) :=
  re_seq (re_char (chr "3")) (re_range (chr "0") (chr "1")) s
  ++ re_seq (re_range (chr "1") (chr "2")) re_digit s
  ++ re_seq (re_char (chr "0")) (re_range (chr "1") (chr "9")) s
  ++ re_range (chr "1") (chr "9") s
  ++ re_seq (re_char (chr " ")) (re_range (chr "1") (chr "9")) s.

(** [(?P<Y>\d\d\d\d)] *)
Definition re_Y (s : str) : list (str * str) :=
  re_seq re_digit (re_seq re_digit (re_seq re_digit re_digit)) s.

(** [int(text)] for a text of decimal digits after optional blanks, the
    only texts the groups above can hold. *)
Fixpoint int_digits (acc : N) (s : str) : option N :=
  match s with
  | [] => Some acc
  | c :: s' =>
      match decimal_char U c with
      | Some v => int_digits (10 * acc + v)%N s'
      | None => None
      end
  end.

Fixpoint py_int (s : str) : option N :=
  match s with
  | [] => None
  | c :: s' => if isspace_char U c then py_int s' else int_digits 0 s
  end.

(** [format_regex.match(data_string)] for the pattern compiled from
    '%B-%d-%Y': the groups and the input left unmatched, for each way
    the pattern matches at the start of the input. *)
Definition re_match (data_string : str) : list (str * str * str * str) :=
  '(B, r1) ← re_B data_string;
  '(_, r2) ← re_char (chr "-") r1;
  '(d, r3) ← re_d r2;
  '(_, r4) ← re_char (chr "-") r3;
  '(Y, r5) ← re_Y r4;
  [(B, d, Y, r5)].

(** [datetime.strptime(data_string, '%B-%d-%Y')]: take the match the
    regular expression prefers, require that nothing remains, convert
    the groups and build the date. *)
Definition strptime_B_d_Y (data_string : str) : outcome datetime :=
  match re_match data_string with
  | [] => Raise ValueError
  | (B, d, Y, unconverted) :: _ =>
      match unconverted with
      | _ :: _ => Raise ValueError
      | [] =>
          match py_int Y, list_index (str_lower U B) f_month, py_int d with
          | Some year, Some month, Some day =>
              if valid_date year (N.of_nat month) day
              then Ok {| dt_year := year; dt_month := N.of_nat month;
                         dt_day := day |}
              else Raise ValueError
          | _, _, _ => Raise ValueError
          end
      end
  end.
End Strptime.

(* ================================================================== *)
(** ** float(value) and format(x, '.2f') *)
(* ================================================================== *)

(** A Python [float] is an IEEE 754 binary64 number; [spec_float] is the
    Standard Library's specification of that format. *)
Definition prec : Z := 53.
Definition emax : Z := 1024.

Fixpoint span {A} (p : A -> bool) (l : list A) : list A * list A :=
  match l with
  | [] => ([], [])
  | x :: l' =>
      if p x then let '(a, b) := span p l' in (x :: a, b) else ([], l)
  end.

Definition digits_value (s : str) : N :=
  fold_left (fun acc c => (10 * acc + (c - 48))%N) s 0%N.

(** The binary64 number nearest to [D * 10^k], ties to even. *)
Definition float_of_decimal (sign : bool) (D : N) (k : Z) : spec_float :=
  match D with
  | N0 => S754_zero sign
  | Npos m =>
      if (0 <=? k)%Z
      then binary_round prec emax sign (m * Z.to_pos (10 ^ k)) 0
      else let '(q, e, l) :=
             SFdiv_core_binary prec emax (Zpos m) 0 (10 ^ (- k)) 0 in
           binary_round_aux prec emax sign q e l
  end.

Definition MAX_DIGITS : N := 1000000000.
Definition MAX_ABS_EXP : N := 1100000000.

Definition split_sign (s : str) : bool * str :=
  match s with
  | c :: r => if (c =? chr "-")%N then (true, r)
              else if (c =? chr "+")%N then (false, r)
              else (false, s)
  | [] => (false, s)
  end.

(** The exponent part: [e] or [E], an optional sign and at least one
    digit; without a digit nothing is consumed. *)
Definition parse_exponent (s : str) : Z * str :=
  match s with
  | c :: r =>
      if (c =? chr "e")%N || (c =? chr "E")%N then
        let '(esign, r1) := split_sign r in
        let '(ds, r2) := span ascii_digit r1 in
        match ds with
        | [] => (0%Z, s)
        | _ =>
            let sig := snd (span (fun d => (d =? chr "0")%N) ds) in
            let abs_exp :=
              if (9 <? length sig)%nat || (MAX_ABS_EXP <? digits_value sig)%N
              then MAX_ABS_EXP else digits_value sig in
            ((if esign then - Z.of_N abs_exp else Z.of_N abs_exp)%Z, r2)
        end
      else (0%Z, s)
  | [] => (0%Z, s)
  end.

(** [_Py_dg_strtod]: an optional sign, decimal digits with an optional
    point, an optional exponent.  The result is the value and the input
    left unread; [None] when no number starts the input. *)
Definition dg_strtod (s : str) : option (spec_float * str) :=
  let '(sign, s1) := split_sign s in
  let '(int_part, s2) := span ascii_digit s1 in
  let '(frac_part, s3) :=
    match s2 with
    | c :: r => if (c =? chr ".")%N then span ascii_digit r else ([], s2)
    | [] => ([], s2)
    end in
  let digits := int_part ++ frac_part in
  let ndigits :=
    N.of_nat (length (snd (span (fun d => (d =? chr "0")%N) digits))) in
  match digits with
  | [] => None
  | _ =>
      if (MAX_DIGITS <? ndigits)%N
         || (MAX_DIGITS <? N.of_nat (length frac_part))%N
      then None
      else
        let '(e, s4) := parse_exponent s3 in
        Some (float_of_decimal sign (digits_value digits)
                (e - Z.of_nat (length frac_part)), s4)
  end.

(** Case-insensitive match of an ASCII lower-case word ([Py_TOLOWER]). *)
Fixpoint match_lower (word s : str) : option str :=
  match word, s with
  | [], _ => Some s
  | w :: word', c :: s' =>
      if (ascii_tolower c =? w)%N then match_lower word' s' else None
  | _ :: _, [] => None
  end.

(** [_Py_parse_inf_or_nan]. *)
Definition parse_inf_or_nan (s : str) : option (spec_float * str) :=
  let '(negate, s1) := split_sign s in
  match match_lower (py "inf") s1 with
  | Some r =>
      Some (S754_infinity negate,
            match match_lower (py "inity") r with Some r' => r' | None => r end)
  | None =>
      match match_lower (py "nan") s1 with
      | Some r => Some (S754_nan, r)
      | None => None
      end
  end.

(** [_PyOS_ascii_strtod]. *)
Definition ascii_strtod (s : str) : option (spec_float * str) :=
  match dg_strtod s with
  | Some r => Some r
  | None => parse_inf_or_nan s
  end.

(** The underscore rule of numeric literals: an underscore stands only
    between two digits.  The result is the text without underscores. *)
Fixpoint strip_underscores (prev : char) (s : str) : option str :=
  match s with
  | [] => if (prev =? chr "_")%N then None else Some []
  | c :: s' =>
      if (c =? chr "_")%N then
        if ascii_digit prev then strip_underscores c s' else None
      else if (prev =? chr "_")%N && negb (ascii_digit c) then None
      else cons c <$> strip_underscores c s'
  end.

Definition rstrip (p : char -> bool) (s : str) : str :=
  reverse (snd (span p (reverse s))).

Section Float.
Context (U : unicode_db).

(** [_PyUnicode_TransformDecimalAndSpaceToASCII]. *)
Fixpoint to_ascii_chars (s : str) : str :=
  match s with
  | [] => []
  | c :: s' =>
      if (c <? 127)%N then c :: to_ascii_chars s'
      else if isspace_char U c then chr " " :: to_ascii_chars s'
      else match decimal_char U c with
           | Some v => (48 + v)%N :: to_ascii_chars s'
           | None => [chr "?"]
           end
  end.

Definition transform_decimal_and_space (s : str) : str :=
  if forallb is_ascii s then s else to_ascii_chars s.

(** [float(value)] for a [str]. *)
Definition py_float (value : str) : outcome spec_float :=
  match strip_underscores 0%N (transform_decimal_and_space value) with
  | None => Raise ValueError
  | Some s =>
      let s := rstrip c_isspace (snd (span c_isspace s)) in
      match ascii_strtod s with
      | Some (x, []) => Ok x
      | _ => Raise ValueError
      end
  end.
End Float.

(** The decimal digits of a natural number. *)
Fixpoint dec_aux (fuel : nat) (n : N) (acc : str) : str :=
  match fuel with
  | O => acc
  | S fuel' =>
      let acc' := (48 + n mod 10)%N :: acc in
      if (n / 10 =? 0)%N then acc' else dec_aux fuel' (n / 10)%N acc'
  end.

Definition str_of_N (n : N) : str := dec_aux (S (N.to_nat (N.log2 n))) n [].

(** The [n] lowest decimal digits of [q], most significant first. *)
Fixpoint low_digits (n : nat) (q : N) : str :=
  match n with
  | O => []
  | S n' => low_digits n' (q / 10)%N ++ [(48 + q mod 10)%N]
  end.

(** The integer nearest to [a / b], ties to even ([0 <= a], [0 < b]). *)
Definition div_half_even (a b : Z) : Z :=
  let q := (a / b)%Z in
  match (2 * (a mod b) ?= b)%Z with
  | Lt => q
  | Gt => (q + 1)%Z
  | Eq => if Z.even q then q else (q + 1)%Z
  end.

(** [|x| * 10^ndigits] rounded to an integer, for [x = m * 2^e]. *)
Definition scaled_round (ndigits : nat) (m : positive) (e : Z) : N :=
  Z.to_N
    (if (0 <=? e)%Z then Zpos m * 2 ^ e * 10 ^ Z.of_nat ndigits
     else div_half_even (Zpos m * 10 ^ Z.of_nat ndigits) (2 ^ (- e)))%Z.

Definition fixed_point (ndigits : nat) (q : N) : str :=
  str_of_N (q / 10 ^ N.of_nat ndigits)%N
  ++ match ndigits with
     | O => []
     | _ => chr "." :: low_digits ndigits q
     end.

Definition sign_text (s : bool) : str := if s then py "-" else [].

(** [format(x, '.<ndigits>f')]. *)
Definition format_f (ndigits : nat) (x : spec_float) : str :=
  match x with
  | S754_nan => py "nan"
  | S754_infinity s => sign_text s ++ py "inf"
  | S754_zero s => sign_text s ++ fixed_point ndigits 0
  | S754_finite s m e => sign_text s ++ fixed_point ndigits (scaled_round ndigits m e)
  end.

(* ================================================================== *)
(** ** repr() and str() *)
(* ================================================================== *)

Definition quote : char := chr "'".
Definition dquote : char := 34%N.
Definition backslash : char := 92%N.

Definition hex_digit (n : N) : char :=
  if (n <? 10)%N then (48 + n)%N else (87 + n)%N.

Fixpoint hex_fixed (k : nat) (n : N) : str :=
  match k with
  | O => []
  | S k' => hex_fixed k' (n / 16)%N ++ [hex_digit (n mod 16)%N]
  end.

Definition str_of_Z (z : Z) : str :=
  match z with
  | Zneg p => chr "-" :: str_of_N (Npos p)
  | _ => str_of_N (Z.to_N z)
  end.

Section Repr.
Context (U : unicode_db).

Definition repr_char (q c : char) : str :=
  if (c =? q)%N || (c =? backslash)%N then [backslash; c]
  else if (c =? 9)%N then [backslash; chr "t"]
  else if (c =? 10)%N then [backslash; chr "n"]
  else if (c =? 13)%N then [backslash; chr "r"]
  else if (c <? 32)%N || (c =? 127)%N then backslash :: chr "x" :: hex_fixed 2 c
  else if (c <? 127)%N then [c]
  else if ucd_isprintable U c then [c]
  else if (c <=? 255)%N then backslash :: chr "x" :: hex_fixed 2 c
  else if (c <=? 65535)%N then backslash :: chr "u" :: hex_fixed 4 c
  else backslash :: chr "U" :: hex_fixed 8 c.

(** [repr(s)] of a [str]: single quotes, unless the text holds a
    single quote and no double quote. *)
Definition repr_str (s : str) : str :=
  let q := if bool_decide (quote ∈ s) && negb (bool_decide (dquote ∈ s))
           then dquote else quote in
  q :: (c ← s; repr_char q c) ++ [q].
End Repr.

(* ================================================================== *)
(** ** psycopg2.sql *)
(* ================================================================== *)

#[warnings="-register-all"] Inductive composable :=
| SQL (s : str)
| Identifier (s : str)
| Composed (parts : list composable).

(** A text as C reads it: up to its first NUL. *)
Fixpoint c_string (s : str) : str :=
  match s with
  | [] => []
  | c :: s' => if (c =? 0)%N then [] else c :: c_string s'
  end.

(** [psycopg2.extensions.quote_ident]: the identifier is handed to
    libpq's [PQescapeIdentifier] as a C string, so it ends at its first
    NUL; it is put between double quotes, with its double quotes
    doubled. *)
Definition quote_ident (s : str) : str :=
  dquote :: (c ← c_string s; if (c =? dquote)%N then [dquote; dquote] else [c])
  ++ [dquote].

(** [Composable.as_string]: the statement text sent to the store. *)
Fixpoint as_string (c : composable) : str :=
  match c with
  | SQL s => s
  | Identifier s => quote_ident s
  | Composed parts =>
      (fix go (l : list composable) : str :=
         match l with
         | [] => []
         | p :: l' => as_string p ++ go l'
         end) parts
  end.

(** [sep.join(seq)] of [psycopg2.sql.SQL]. *)
Fixpoint sql_join_parts (sep : composable) (seq : list composable)
  : list composable :=
  match seq with
  | [] => []
  | [x] => [x]
  | x :: seq' => x :: sep :: sql_join_parts sep seq'
  end.

Definition SQL_join (sep : composable) (seq : list composable) : composable :=
  Composed (sql_join_parts sep seq).

(** The literal texts of a template around its [{}] placeholders. *)
Fixpoint split_placeholders (s : str) : list str :=
  match s with
  | [] => [[]]
  | c :: s' =>
      match s' with
      | d :: s'' =>
          if (c =? chr "{")%N && (d =? chr "}")%N
          then [] :: split_placeholders s''
          else match split_placeholders s' with
               | w :: ws => (c :: w) :: ws
               | [] => [[c]]
               end
      | [] => [[c]]
      end
  end.

(** [SQL(template).format(...)] for a template whose only fields are
    the automatically numbered [{}]. *)
Fixpoint sql_format_parts (pieces : list str) (args : list composable)
  : outcome (list composable) :=
  let lit (pre : str) := match pre with [] => [] | _ => [SQL pre] end in
  match pieces with
  | [] => Ok []
  | [pre] => Ok (lit pre)
  | pre :: pieces' =>
      match args with
      | [] => Raise IndexError
      | a :: args' =>
          let! rv := sql_format_parts pieces' args' in
          Ok (lit pre ++ a :: rv)
      end
  end.

Definition SQL_format (template : str) (args : list composable)
  : outcome composable :=
  let! rv := sql_format_parts (split_placeholders template) args in
  Ok (Composed rv).

(* ================================================================== *)
(** ** The record handed to the loader *)
(* ================================================================== *)

(** A normalized value: text, or the [datetime] of a date field. *)
Inductive nvalue :=
| VStr (s : str)
| VDate (d : datetime).

(** Truth value of a normalized value: a [datetime] is always true, a
    [str] is true when it is not empty. *)
Definition truthy (v : nvalue) : bool :=
  match v with
  | VStr [] => false
  | _ => true
  end.

(** A [dict] with [str] keys, in insertion order. *)
Definition dict (V : Type) := list (str * V).

Fixpoint dict_get {V} (d : dict V) (k : str) : option V :=
  match d with
  | [] => None
  | (k', v) :: d' => if decide (k = k') then Some v else dict_get d' k
  end.

(** [d[k] = v]: a new key goes last, a present key keeps its place. *)
Fixpoint dict_set {V} (d : dict V) (k : str) (v : V) : dict V :=
  match d with
  | [] => [(k, v)]
  | (k', v') :: d' =>
      if decide (k = k') then (k, v) :: d' else (k', v') :: dict_set d' k v
  end.

Definition dict_keys {V} (d : dict V) : list str := d.*1.
Definition dict_values {V} (d : dict V) : list V := d.*2.

(** [sql.Identifier(n)]: the argument must be a [str]. *)
Definition make_Identifier (n : nvalue) : outcome composable :=
  match n with
  | VStr s => Ok (Identifier s)
  | VDate _ => Raise TypeError
  end.

Fixpoint mapM {A B} (f : A -> outcome B) (l : list A) : outcome (list B) :=
  match l with
  | [] => Ok []
  | x :: l' =>
      let! y := f x in
      let! ys := mapM f l' in
      Ok (y :: ys)
  end.

(* ================================================================== *)
(** ** The world around the pipeline *)
(* ================================================================== *)

(** What [cur.execute] is called with: the composed query, and the
    sequence of values to bind to its placeholders when one is passed. *)
Record statement := {
  stmt_query : composable;
  stmt_vars : option (list nvalue)
}.

(** What iterating a [csv.reader] yields: a row, a [csv.Error] (given by
    its [repr]) at some line of the file, or an exception of another
    class raised while the file is read ([UnicodeDecodeError] when its
    bytes are not text in the encoding of [open]). *)
Inductive reader_item :=
| ReaderRow (row : list str)
| ReaderError (e_repr : str) (line_num : N)
| ReaderRaise (e : exn).

(** The store's answer to a statement: a [psycopg2.Error] raised by
    [execute], [fetchone], [commit] or [close], or the row fetched after
    a committed insert, here the one-column row [(id,)]. *)
Inductive db_reply :=
| DbError (msg : str)
| DbRow (id : Z).

(** The collaborators the code calls but does not define: the Unicode
    tables of the interpreter, the csv files on disk, the clock, and the
    store, whose behaviour may depend on the statements committed so
    far.  [files] gives what the reader of a file yields when [open]
    succeeds, and [open_error] the exception [open] raises when it does
    not ([FileNotFoundError], [PermissionError], [IsADirectoryError]).
    [db_connect] gives the message of the error [psycopg2.connect]
    raises, if it raises. *)
Record env := {
  ucd : unicode_db;
  files : str -> option (list reader_item);
  open_error : str -> exn;
  now : str;
  db_connect : list statement -> option str;
  db_execute : list statement -> statement -> db_reply
}.

(** What a run changes: the lines printed, the text appended to
    [logs/ingest_csv_py_log.txt], the statements committed to the store. *)
Record world := {
  stdout : list str;
  log_file : list str;
  db : list statement
}.

Definition io (A : Type) : Type := world -> outcome A * world.

Definition io_ret {A} (a : A) : io A := fun w => (Ok a, w).
Definition io_raise {A} (e : exn) : io A := fun w => (Raise e, w).
Definition io_bind {A B} (m : io A) (f : A -> io B) : io B :=
  fun w =>
    match m w with
    | (Ok a, w') => f a w'
    | (Raise e, w') => (Raise e, w')
    end.
Definition io_lift {A} (m : outcome A) : io A := fun w => (m, w).

Notation "'do!' x ':=' m 'in' k" := (io_bind m (fun x => k))
  (at level 10, x name, m at level 100, k at level 200).

Definition print (line : str) : io unit :=
  fun w => (Ok tt, {| stdout := stdout w ++ [line];
                      log_file := log_file w; db := db w |}).

(** [f.write(text)] on the log file opened for appending; the file is
    taken to be writable. *)
Definition log_append (text : str) : io unit :=
  fun w => (Ok tt, {| stdout := stdout w;
                      log_file := log_file w ++ [text]; db := db w |}).

(** The objects handed to [log_error_and_exit]. *)
Inductive error_info :=
| ErrKeyError (key : str)
| ErrPsycopg2 (msg : str)
| ErrCsv (e_repr : str) (file : str) (line_num : N).

(* ================================================================== *)
(** ** ingest_csv.py *)
(* ================================================================== *)

Definition DATA_PATH : str := py "data/".
Definition file_list : list str := [py "data/test.csv"; py "data/test.csv"].

Definition expenditure_column_conversions : dict str :=
  [ (py "BIOGUIDE_ID", py "bioguide_id");
    (py "OFFICE", py "office");
    (py "QUARTER", py "fiscal_quarter");
    (py "SORT SEQUENCE", py "sort_sequence");
    (py "PROGRAM", py "program_type");
    (py "CATEGORY", py "expense_category");
    (py "DATE", py "record_date");
    (py "PAYEE", py "payee");
    (py "START DATE", py "start_date");
    (py "END DATE", py "end_date");
    (py "PURPOSE", py "purpose");
    (py "AMOUNT", py "amount");
    (py "YEAR", py "fiscal_year");
    (py "RECIP (orig.)", py "original_recipient");
    (py "", py "old_payee") ].

Section Pipeline.
Context (E : env).

(** [str(error)] for the objects the code logs: a [KeyError] prints the
    [repr] of its key, a [psycopg2.Error] its message, and the tuple
    [(e, file, reader.line_num)] the [repr] of its items. *)
Definition str_of_error (error : error_info) : str :=
  match error with
  | ErrKeyError key => repr_str (ucd E) key
  | ErrPsycopg2 msg => msg
  | ErrCsv e_repr file line_num =>
      py "(" ++ e_repr ++ py ", " ++ repr_str (ucd E) file ++ py ", "
      ++ str_of_N line_num ++ py ")"
  end.

(** Lines 176-185: the entry is written to the log, then [sys.exit]
    raises [SystemExit] with the same text. *)
Definition error_output (error : error_info) : str :=
  now E ++ py " - Error message: " ++ str_of_error error ++ [chr " "; 10%N].

Definition log_error_and_exit (error : error_info) : io unit :=
  do! _ := log_append (error_output error) in
  io_raise (SystemExit (error_output error)).

(** [psycopg2.connect("dbname=house-spending user=house-spending")]. *)
Definition psycopg2_connect : io unit :=
  fun w =>
    match db_connect E (db w) with
    | Some msg => (Raise (OperationalError msg), w)
    | None => (Ok tt, w)
    end.

(** [cur.execute(query, vars)], [cur.fetchone()], [conn.commit()] and the
    two [close()]: the statement is committed when none of them raises. *)
Definition cur_execute_fetchone_commit (query : composable)
    (vars : option (list nvalue)) : io db_reply :=
  fun w =>
    let stmt := {| stmt_query := query; stmt_vars := vars |} in
    match db_execute E (db w) stmt with
    | DbRow id =>
        (Ok (DbRow id),
         {| stdout := stdout w; log_file := log_file w; db := db w ++ [stmt] |})
    | DbError msg => (Ok (DbError msg), w)
    end.

(** Lines 149-173.  The result is the fetched row, or [None] when the
    function ends without reaching its [return]. *)
Definition insert_into_db (key_val_dict : dict nvalue) : io (option Z) :=
  let keys := dict_keys key_val_dict in
  let values := dict_values key_val_dict in
  do! _ := psycopg2_connect in
  do! query := io_lift (
    let! columns := mapM make_Identifier (VStr <$> keys) in
    let! literals := mapM make_Identifier values in
    SQL_format (py "INSERT INTO expenditures ({}) VALUES ({}) RETURNING id")
      [SQL_join (SQL (py ", ")) columns;
       SQL_join (SQL (py ", ")) literals]) in
  do! reply := cur_execute_fetchone_commit query None in
  match reply with
  | DbRow expense_id => io_ret (Some expense_id)
  | DbError err =>
      do! _ := log_error_and_exit (ErrPsycopg2 err) in
      io_ret None
  end.

Definition char_list : list str :=
  [py "."; py ","; [9%N]; [172%N]; [8800%N]; py "!"; py "?"; py "="].
Definition slash_list : list str :=
  [[chr " "; backslash; chr " "]; [chr " "; backslash]; [backslash; chr " "]].
Definition amp_list : list str := [py " & "; py "& "; py " &"].

(** Lines 128-146. *)
Definition normalize_entry (value : str) : outcome str :=
  let! normed_value :=
    str_translate value [PyNone; PyStr (str_join [] char_list)] in
  let! normed_value :=
    str_translate normed_value [PyNone; PyStr (str_join (py "&") amp_list)] in
  let! normed_value :=
    str_translate normed_value [PyNone; PyStr (str_join [backslash] slash_list)] in
  let normed_value := str_join (py " ") (str_split (ucd E) normed_value) in
  let normed_value := str_title (ucd E) normed_value in
  Ok normed_value.

(** Lines 107-120: the rule applied to one cell, chosen by its column. *)
Definition normalize_value (key value : str) : outcome nvalue :=
  if bool_decide (key = py "start_date") || bool_decide (key = py "end_date")
     || bool_decide (key = py "record_date") then
    let! value := strptime_B_d_Y (ucd E) value in
    Ok (VDate value)
  else if bool_decide (key = py "fiscal_year")
          && negb (str_isdigit (ucd E) value) then
    let split_val := str_split (ucd E) value in
    let! value := list_last_item split_val in
    Ok (VStr value)
  else if bool_decide (key = py "amount") then
    let! x := py_float (ucd E) value in
    Ok (VStr (format_f 2 x))
  else if bool_decide (key = py "office") then
    if (4 <? length value)%nat && str_isnumeric (ucd E) (take 4 value) then
      let value := drop 4 (take (length value) value) in
      let! value := normalize_entry value in
      Ok (VStr value)
    else Ok (VStr value)
  else if bool_decide (key = py "payee")
          || bool_decide (key = py "original_recipient")
          || bool_decide (key = py "old_payee") then
    let! value := normalize_entry value in
    Ok (VStr value)
  else Ok (VStr value).

(** Lines 103-123: one turn of the loop over [range(len(expense_row))]. *)
Definition process_cell (expense_row column_names : list str) (i : nat)
    (row_keys_values : dict nvalue) : outcome (dict nvalue) :=
  let! value := list_item expense_row i in
  let! key := list_item column_names i in
  let! value := normalize_value key value in
  if truthy value then Ok (dict_set row_keys_values key value)
  else Ok row_keys_values.

Fixpoint for_range (body : nat -> dict nvalue -> outcome (dict nvalue))
    (range : list nat) (d : dict nvalue) : outcome (dict nvalue) :=
  match range with
  | [] => Ok d
  | i :: range' =>
      let! d' := body i d in
      for_range body range' d'
  end.

(** [row.split(',')]: only a [str] has the method. *)
Definition row_split (row : pyobj) : outcome (list str) :=
  match row with
  | PyStr s => Ok (str_split_on (chr ",") s)
  | PyList _ | PyNone => Raise AttributeError
  end.

(** Lines 100-123 of [process_row]: the record handed to the loader. *)
Definition build_record (row : pyobj) (column_names : list str)
  : outcome (dict nvalue) :=
  let row_keys_values := [] in
  let! expense_row := row_split row in
  for_range (process_cell expense_row column_names)
    (seq 0 (length expense_row)) row_keys_values.

(** Lines 94-125. *)
Definition process_row (row : pyobj) (column_names : list str)
  : io (option Z) :=
  do! row_keys_values := io_lift (build_record row column_names) in
  insert_into_db row_keys_values.

(** Lines 74-91. *)
Fixpoint normalize_column_names_from (column_names header_row : list str)
  : io (list str) :=
  match header_row with
  | [] => io_ret column_names
  | header_entry :: header_row' =>
      match dict_get expenditure_column_conversions header_entry with
      | Some column_name =>
          normalize_column_names_from (column_names ++ [column_name]) header_row'
      | None =>
          do! _ := print (py "No matching entry for " ++ header_entry) in
          do! _ := log_error_and_exit (ErrKeyError header_entry) in
          normalize_column_names_from column_names header_row'
      end
  end.

Definition normalize_column_names (header_row : list str) : io (list str) :=
  normalize_column_names_from [] header_row.

(** [print(expense_id)]: the fetched row [(id,)], or [None]. *)
Definition str_of_row (expense_id : option Z) : str :=
  match expense_id with
  | Some id => py "(" ++ str_of_Z id ++ py ",)"
  | None => py "None"
  end.

(** Lines 57-69: the rows of one file.  [column_names] starts as the
    empty string and is false until a header row gave a name. *)
Fixpoint process_rows (file : str) (reader : list reader_item)
    (column_names : list str) : io unit :=
  match reader with
  | [] => io_ret tt
  | ReaderError e line_num :: _ =>
      log_error_and_exit (ErrCsv e file line_num)
  | ReaderRaise e :: _ => io_raise e
  | ReaderRow row :: reader' =>
      match column_names with
      | [] =>
          do! column_names := normalize_column_names row in
          process_rows file reader' column_names
      | _ :: _ =>
          do! expense_id := process_row (PyList row) column_names in
          do! _ := print (str_of_row expense_id) in
          process_rows file reader' column_names
      end
  end.

(** [open(DATA_PATH + file, newline='')] and [csv.reader(f)]. *)
Definition open_reader (path : str) : io (list reader_item) :=
  match files E path with
  | Some reader => io_ret reader
  | None => io_raise (open_error E path)
  end.

Fixpoint process_files (files : list str) : io unit :=
  match files with
  | [] => io_ret tt
  | file :: files' =>
      do! reader := open_reader (DATA_PATH ++ file) in
      do! _ := process_rows file reader [] in
      process_files files'
  end.

(** Lines 43-71. *)
Definition process_csvs (files : list str) : io unit :=
  do! _ := process_files files in
  print (str_of_N (N.of_nat (length files)) ++ py " files processed successfully!").

End Pipeline.

(* ================================================================== *)
(** ** The record builder's loop, read cell by cell *)
(* ================================================================== *)

(** The loop of [process_row] as a recursion over the cells and the
    column names side by side ([for_range_process_cell] shows that the
    loop over the indices computes it). *)
Fixpoint build_from (E : env) (cells column_names : list str)
    (d : dict nvalue) : outcome (dict nvalue) :=
  match cells with
  | [] => Ok d
  | value :: cells' =>
      match column_names with
      | [] => Raise IndexError
      | key :: column_names' =>
          let! value := normalize_value E key value in
          build_from E cells' column_names'
            (if truthy value then dict_set d key value else d)
      end
  end.

(** [row_keys_values[key] = value] under [if value:], for a list of
    fields and their normalized values. *)
Definition store_fields (d : dict nvalue) (fields : list (str * nvalue))
  : dict nvalue :=
  fold_left (fun d kv => if truthy kv.2 then dict_set d kv.1 kv.2 else d)
    fields d.

(* ================================================================== *)
(** ** The statement the loader composes *)
(* ================================================================== *)

(** The query of lines 161-163 for keys and values that are all text. *)
Definition insert_query (keys values : list str) : composable :=
  Composed [ SQL (py "INSERT INTO expenditures (");
             SQL_join (SQL (py ", ")) (Identifier <$> keys);
             SQL (py ") VALUES (");
             SQL_join (SQL (py ", ")) (Identifier <$> values);
             SQL (py ") RETURNING id") ].

(** Its text. *)
Definition insert_text (keys values : list str) : str :=
  py "INSERT INTO expenditures (" ++ str_join (py ", ") (quote_ident <$> keys)
  ++ py ") VALUES (" ++ str_join (py ", ") (quote_ident <$> values)
  ++ py ") RETURNING id".

(* ================================================================== *)
(** ** Lines 136-144 under the Python 2 signature of [translate] *)
(* ================================================================== *)

(** Python 2 cannot load the module, but lines 140-142 are written for
    its [str.translate(table, deletechars)], which with [None] for the
    table deletes every character that occurs in [deletechars].  A [str]
    is a byte string there, the non-ASCII characters of [char_list] are
    their UTF-8 bytes, and white space and letters are those of the C
    locale. *)
Definition translate_delete (s deletechars : str) : str :=
  filter (fun c => c ∉ deletechars) s.

Definition char_list_bytes : list str :=
  [py "."; py ","; [9%N]; [194%N; 172%N]; [226%N; 137%N; 160%N];
   py "!"; py "?"; py "="].

Definition normalize_entry_py2 (value : str) : str :=
  let normed_value := translate_delete value (str_join [] char_list_bytes) in
  let normed_value :=
    translate_delete normed_value (str_join (py "&") amp_list) in
  let normed_value :=
    translate_delete normed_value (str_join [backslash] slash_list) in
  let normed_value := str_join (py " ") (split_runs c_isspace normed_value) in
  let normed_value := ascii_title false normed_value in
  normed_value.

(* ================================================================== *)
(** ** An environment to run the code in *)
(* ================================================================== *)

(** Tables that put no code point beyond ASCII in any class.  The
    examples are ASCII text and never consult them. *)
Definition ucd_none : unicode_db := {|
  ucd_isspace := fun _ => false;
  ucd_isdigit := fun _ => false;
  ucd_isnumeric := fun _ => false;
  ucd_decimal := fun _ => None;
  ucd_isprintable := fun _ => true;
  ucd_ascii_fold := fun _ => None;
  ucd_lower := fun c => [c];
  ucd_title := fun s => s
|}.

(** [data/test.csv]: a header row of three mapped labels and one data
    row whose middle cell is blank. *)
Definition test_csv : list reader_item :=
  [ ReaderRow [py "PURPOSE"; py "CATEGORY"; py "PROGRAM"];
    ReaderRow [py "Travel"; py ""; py "Official"] ].

(** A store that accepts every connection and every statement and numbers
    the rows from 1, a clock stopped at one instant, and a disk holding
    [data/test.csv] and no other file. *)
Definition test_env : env := {|
  ucd := ucd_none;
  files := fun path =>
    if decide (path = py "data/test.csv") then Some test_csv else None;
  open_error := fun _ => FileNotFoundError;
  now := py "2017-06-01 12:00:00.250000";
  db_connect := fun _ => None;
  db_execute := fun committed _ => DbRow (Z.of_nat (S (length committed)))
|}.

(** The same, with a store that rejects every statement. *)
Definition failing_store_env : env := {|
  ucd := ucd_none;
  files := files test_env;
  open_error := open_error test_env;
  now := now test_env;
  db_connect := fun _ => None;
  db_execute := fun _ _ => DbError (py "relation does not exist")
|}.

Definition empty_world : world := {| stdout := []; log_file := []; db := [] |}.

(* ================================================================== *)
(** ** Vocabulary of the statements *)
(* ================================================================== *)

(** A world after one more entry in the log file. *)
Definition logged (w : world) (entry : str) : world :=
  {| stdout := stdout w; log_file := log_file w ++ [entry]; db := db w |}.

(** A header label that is a key of the header mapping. *)
Definition mapped (header_entry : str) : Prop :=
  is_Some (dict_get expenditure_column_conversions header_entry).

(** The columns whose cells are parsed as dates. *)
Definition date_keys : list str :=
  [py "start_date"; py "end_date"; py "record_date"].

(* ================================================================== *)
(** ** The texts that '%B-%d-%Y' accepts *)
(* ================================================================== *)

Definition in_range (lo hi c : char) : Prop := (lo <= c <= hi)%N.

(** A month: a month name, letter by letter, whatever the case. *)
Definition matches_B (U : unicode_db) (B : str) : Prop :=
  exists name,
    name ∈ re_B_names /\ Forall2 (fun p c => ci_eq U p c = true) name B.

(** A day: 30 or 31; 10 to 29; 01 to 09; 1 to 9; a blank and 1 to 9. *)
Inductive matches_d (U : unicode_db) : str -> Prop :=
| d_thirty c :
    in_range (chr "0") (chr "1") c -> matches_d U [chr "3"; c]
| d_tens c1 c2 :
    in_range (chr "1") (chr "2") c1 -> is_Some (decimal_char U c2) ->
    matches_d U [c1; c2]
| d_padded c :
    in_range (chr "1") (chr "9") c -> matches_d U [chr "0"; c]
| d_single c :
    in_range (chr "1") (chr "9") c -> matches_d U [c]
| d_blank c :
    in_range (chr "1") (chr "9") c -> matches_d U [chr " "; c].

(** A year: four decimal digits. *)
Definition matches_Y (U : unicode_db) (Y : str) : Prop :=
  length Y = 4 /\ Forall (fun c => is_Some (decimal_char U c)) Y.

(** The text of a date: month, day and year joined by hyphens, the month
    being the one whose name the text spells in lower case, the day and
    the year the numbers their digits read, and the three a date of the
    calendar. *)
Definition date_text (U : unicode_db) (s : str) (dt : datetime) : Prop :=
  exists B d Y,
    s = B ++ chr "-" :: d ++ chr "-" :: Y
    /\ matches_B U B /\ matches_d U d /\ matches_Y U Y
    /\ list_index (str_lower U B) f_month = Some (N.to_nat (dt_month dt))
    /\ py_int U d = Some (dt_day dt)
    /\ py_int U Y = Some (dt_year dt)
    /\ valid_date (dt_year dt) (dt_month dt) (dt_day dt) = true.

(** Two patterns that differ at a position both have. *)
Fixpoint differ (a b : str) : bool :=
  match a, b with
  | x :: a', y :: b' => if (x =? y)%N then differ a' b' else true
  | _, _ => false
  end.

(* ================================================================== *)
(** ** Fixed-point texts *)
(* ================================================================== *)

Definition is_digits (s : str) : Prop := Forall (fun c => ascii_digit c = true) s.

(** The text [s] is an optional minus sign, one or more digits, a point
    and two digits, and its digits read the number [q]: it denotes
    [q / 100], negated when [sign] is set. *)
Definition fixed_two_decimals (s : str) (sign : bool) (q : N) : Prop :=
  exists int_part d1 d2,
    s = sign_text sign ++ int_part ++ [chr "."; d1; d2]
    /\ int_part <> []
    /\ is_digits (int_part ++ [d1; d2])
    /\ digits_value (int_part ++ [d1; d2]) = q.

(** [q] is the number of hundredths nearest to [m * 2^e]. *)
Definition nearest_hundredths (m : positive) (e : Z) (q : N) : Prop :=
  if (0 <=? e)%Z then Z.of_N q = (Zpos m * 2 ^ e * 100)%Z
  else (Z.abs (2 * (Z.of_N q * 2 ^ (- e) - Zpos m * 100)) <= 2 ^ (- e))%Z.

(** The text [B] spells [name] in ASCII letters of either case. *)
Definition spells (B name : str) : Prop :=
  Forall (fun c => is_ascii c = true) B /\ ascii_tolower <$> B = name.

(** A world after one more printed line. *)
Definition printed (w : world) (line : str) : world :=
  {| stdout := stdout w ++ [line]; log_file := log_file w; db := db w |}.

(** What a file without data rows yields: blank lines, then at most one
    header row, not empty, of mapped labels. *)
Definition header_only (reader : list reader_item) : Prop :=
  exists k tail,
    reader = replicate k (ReaderRow []) ++ tail
    /\ (tail = []
        \/ exists header,
             tail = [ReaderRow header] /\ header <> [] /\ Forall mapped header).

(** The line printed at the end of a run over [n] files. *)
Definition summary_line (n : nat) : str :=
  str_of_N (N.of_nat n) ++ py " files processed successfully!".

(** A disk on which every name is a file of one blank line and a header
    row, with the store and the clock of [test_env]. *)
Definition headers_env : env := {|
  ucd := ucd_none;
  files := fun _ => Some [ReaderRow []; ReaderRow [py "DATE"; py "AMOUNT"]];
  open_error := open_error test_env;
  now := now test_env;
  db_connect := db_connect test_env;
  db_execute := db_execute test_env
|}.

(** The columns whose cells go through [normalize_entry]. *)
Definition payee_keys : list str :=
  [py "payee"; py "original_recipient"; py "old_payee"].

(** The columns that have a rule in [process_row]. *)
Definition rule_keys : list str :=
  date_keys ++ [py "fiscal_year"; py "amount"; py "office"] ++ payee_keys.

(** The number of occurrences of a character in a text. *)
Fixpoint count_char (c : char) (s : str) : nat :=
  match s with
  | [] => 0
  | x :: s' => if (x =? c)%N then S (count_char c s') else count_char c s'
  end.

(** The fields [if value:] lets through. *)
Definition kept_fields (fields : list (str * nvalue)) : list (str * nvalue) :=
  filter (fun kv => truthy kv.2 = true) fields.

(** A world after one more committed statement. *)
Definition committed (w : world) (stmt : statement) : world :=
  {| stdout := stdout w; log_file := log_file w; db := db w ++ [stmt] |}.

(** The exceptions a cell can raise while it is normalized. *)
Definition cell_errors : list exn := [ValueError; IndexError; TypeError].

(** The ways a run of [process_csvs] over [file_names] can fail: the
    exception, and the world it leaves, from the world [w] it started
    in. *)
Inductive run_failure (E : env) (file_names : list str) (w : world)
  : exn -> world -> Prop :=
| fail_open file :
    file ∈ file_names -> files E (DATA_PATH ++ file) = None ->
    run_failure E file_names w (open_error E (DATA_PATH ++ file)) w
| fail_read file reader e :
    file ∈ file_names -> files E (DATA_PATH ++ file) = Some reader ->
    ReaderRaise e ∈ reader ->
    run_failure E file_names w e w
| fail_data_row file reader header row :
    file ∈ file_names -> files E (DATA_PATH ++ file) = Some reader ->
    ReaderRow header ∈ reader -> header <> [] -> Forall mapped header ->
    ReaderRow row ∈ reader ->
    run_failure E file_names w AttributeError w
| fail_header file reader header h :
    file ∈ file_names -> files E (DATA_PATH ++ file) = Some reader ->
    ReaderRow header ∈ reader -> h ∈ header -> ~ mapped h ->
    run_failure E file_names w
      (SystemExit (error_output E (ErrKeyError h)))
      (logged (printed w (py "No matching entry for " ++ h))
         (error_output E (ErrKeyError h)))
| fail_csv file reader e_repr line_num :
    file ∈ file_names -> files E (DATA_PATH ++ file) = Some reader ->
    ReaderError e_repr line_num ∈ reader ->
    run_failure E file_names w
      (SystemExit (error_output E (ErrCsv e_repr file line_num)))
      (logged w (error_output E (ErrCsv e_repr file line_num))).

(** The last run of a text outside the class [sp]: a part of the text
    that is not empty and holds no character of the class, with nothing
    but characters of the class after it, and that starts the text or
    follows a character of the class. *)
Definition last_run (sp : char -> bool) (s t : str) : Prop :=
  exists pre ws,
    s = pre ++ t ++ ws
    /\ t <> []
    /\ Forall (fun c => sp c = false) t
    /\ Forall (fun c => sp c = true) ws
    /\ match list.last pre with Some c => sp c = true | None => True end.

(* ================================================================== *)
(** * Properties *)
(* ================================================================== *)

(** ** The monads *)

Lemma io_bind_ok {A B} (m : io A) (f : A -> io B) w a w' :
  m w = (Ok a, w') -> io_bind m f w = f a w'.
Proof. unfold io_bind. by intros ->. Qed.

Lemma io_bind_raise {A B} (m : io A) (f : A -> io B) w e w' :
  m w = (Raise e, w') -> io_bind m f w = (Raise e, w').
Proof. unfold io_bind. by intros ->. Qed.

(** ** Lists *)

Lemma list_item_middle {A} (l1 l2 : list A) (x : A) :
  list_item (l1 ++ x :: l2) (length l1) = Ok x.
Proof. unfold list_item. by rewrite list_lookup_middle. Qed.

Lemma list_item_end {A} (l : list A) :
  list_item l (length l) = Raise IndexError.
Proof. unfold list_item. by rewrite lookup_ge_None_2. Qed.

(** ** Splitting a line at its commas *)

Lemma str_split_on_nonempty sep s : str_split_on sep s <> [].
Proof.
  induction s as [|c s IH]; cbn [str_split_on]; [done|].
  destruct (c =? sep)%N; [done|]. by destruct (str_split_on sep s).
Qed.

(** The cells of a line, joined by the separator, are the line. *)
Lemma str_join_split_on sep s : str_join [sep] (str_split_on sep s) = s.
Proof.
  induction s as [|c s IH]; cbn [str_split_on]; [done|].
  pose proof (str_split_on_nonempty sep s) as Hne.
  destruct (N.eqb_spec c sep) as [->|Hc].
  - destruct (str_split_on sep s) as [|w ws]; [done|].
    cbn [str_join app] in *. by rewrite IH.
  - destruct (str_split_on sep s) as [|w ws]; [done|].
    destruct ws as [|w' ws]; cbn [str_join app] in *; by rewrite <- IH.
Qed.

(** No cell holds the separator. *)
Lemma str_split_on_cells sep s :
  Forall (fun cell => sep ∉ cell) (str_split_on sep s).
Proof.
  induction s as [|c s IH]; cbn [str_split_on].
  - repeat constructor. apply not_elem_of_nil.
  - destruct (N.eqb_spec c sep) as [->|Hc].
    + constructor; [apply not_elem_of_nil|done].
    + destruct (str_split_on sep s) as [|w ws]; [repeat constructor|].
      * apply not_elem_of_cons. split; [done|apply not_elem_of_nil].
      * apply list.Forall_cons in IH as [Hw Hws]. constructor; [|done].
        apply not_elem_of_cons. by split.
Qed.

(** ** The loop of the record builder *)

Lemma for_range_process_cell E pre_cells pre_cols cells cols d :
  length pre_cells = length pre_cols ->
  for_range (process_cell E (pre_cells ++ cells) (pre_cols ++ cols))
    (seq (length pre_cells) (length cells)) d
  = build_from E cells cols d.
Proof.
  revert pre_cells pre_cols cols d.
  induction cells as [|v cells IH]; intros pre_cells pre_cols cols d Hlen; [done|].
  cbn [length seq for_range build_from].
  unfold process_cell at 1.
  rewrite list_item_middle. cbn [obind].
  destruct cols as [|k cols].
  - assert (list_item (pre_cols ++ []) (length pre_cells) = Raise IndexError)
      as -> by (rewrite app_nil_r, Hlen; apply list_item_end).
    done.
  - assert (list_item (pre_cols ++ k :: cols) (length pre_cells) = Ok k)
      as -> by (rewrite Hlen; apply list_item_middle).
    cbn [obind].
    destruct (normalize_value E k v) as [nv|e]; cbn [obind]; [|done].
    specialize (IH (pre_cells ++ [v]) (pre_cols ++ [k]) cols).
    rewrite <- !app_assoc in IH. cbn [app] in IH.
    rewrite !length_app in IH. cbn [length] in IH.
    rewrite Nat.add_1_r in IH.
    destruct (truthy nv); cbn [obind]; apply IH; lia.
Qed.

Lemma build_record_str E row cols :
  build_record E (PyStr row) cols
  = build_from E (str_split_on (chr ",") row) cols [].
Proof.
  unfold build_record. cbn [row_split obind].
  apply (for_range_process_cell E [] [] _ cols []). done.
Qed.

(** The cells that normalize are stored and the loop goes on with the
    rest of the row. *)
Lemma build_from_app E pre pre_cols nvs rest rest_cols d :
  Forall3 (fun v k nv => normalize_value E k v = Ok nv) pre pre_cols nvs ->
  build_from E (pre ++ rest) (pre_cols ++ rest_cols) d
  = build_from E rest rest_cols (store_fields d (zip pre_cols nvs)).
Proof.
  intros H. revert d. induction H as [|v k nv pre pre_cols nvs Hn _ IH]; intros d.
  - done.
  - cbn [app build_from]. rewrite Hn. cbn [obind]. rewrite IH. done.
Qed.

Lemma build_from_ok E cells cols nvs d :
  Forall3 (fun v k nv => normalize_value E k v = Ok nv) cells cols nvs ->
  build_from E cells cols d = Ok (store_fields d (zip cols nvs)).
Proof.
  intros H. pose proof (build_from_app E cells cols nvs [] [] d H) as Happ.
  by rewrite !app_nil_r in Happ.
Qed.

(** The first cell that fails ends the loop with its exception. *)
Lemma build_from_raise E pre pre_cols nvs v k e post post_cols d :
  Forall3 (fun v k nv => normalize_value E k v = Ok nv) pre pre_cols nvs ->
  normalize_value E k v = Raise e ->
  build_from E (pre ++ v :: post) (pre_cols ++ k :: post_cols) d = Raise e.
Proof.
  intros H Hv. rewrite (build_from_app _ _ _ _ _ _ _ H).
  cbn [build_from]. by rewrite Hv.
Qed.

(** What [process_row] does once the record is built, or not. *)
Lemma process_row_built E row cols d w :
  build_record E row cols = Ok d ->
  process_row E row cols w = insert_into_db E d w.
Proof. unfold process_row, io_bind, io_lift. by intros ->. Qed.

Lemma process_row_not_built E row cols e w :
  build_record E row cols = Raise e ->
  process_row E row cols w = (Raise e, w).
Proof. unfold process_row, io_bind, io_lift. by intros ->. Qed.

(** ** The value normalizer: fiscal year *)

Lemma normalize_value_fiscal_year_empty E :
  normalize_value E (py "fiscal_year") [] = Raise IndexError.
Proof. reflexivity. Qed.

(** C10: an empty cell in the fiscal-year column is neither passed
    through nor dropped: the empty string is not all digits, its
    whitespace split is the empty list, and taking the last item of that
    list raises [IndexError].  The exception leaves [process_row] as it
    is: nothing is written to the log and nothing is inserted. *)
Theorem fiscal_year_empty_cell_IndexError (E : env) (w : world)
    (row : str) (pre post pre_cols post_cols : list str) (nvs : list nvalue) :
  str_split_on (chr ",") row = pre ++ [] :: post ->
  Forall3 (fun v k nv => normalize_value E k v = Ok nv) pre pre_cols nvs ->
  str_isdigit (ucd E) [] = false
  /\ str_split (ucd E) [] = []
  /\ normalize_value E (py "fiscal_year") [] = Raise IndexError
  /\ process_row E (PyStr row) (pre_cols ++ py "fiscal_year" :: post_cols) w
     = (Raise IndexError, w).
Proof.
  intros Hrow Hpre. split_and!; [reflexivity..|].
  apply process_row_not_built.
  rewrite build_record_str, Hrow.
  eapply build_from_raise; [exact Hpre|reflexivity].
Qed.

Lemma fiscal_year_empty_cell_IndexError_witness :
  process_row test_env (PyStr (py "Travel,,x"))
    [py "purpose"; py "fiscal_year"; py "program_type"] empty_world
  = (Raise IndexError, empty_world).
Proof.
  refine (proj2 (proj2 (proj2
    (fiscal_year_empty_cell_IndexError test_env empty_world (py "Travel,,x")
       [py "Travel"] [py "x"] [py "purpose"] [py "program_type"]
       [VStr (py "Travel")] _ _)))).
  - reflexivity.
  - repeat constructor.
Defined.

(** ** The batch driver hands lists to [process_row] *)

Lemma process_row_list E row column_names w :
  process_row E (PyList row) column_names w = (Raise AttributeError, w).
Proof. reflexivity. Qed.

(** Every data row of every file ends the run in [process_row]'s first
    statement. *)
Lemma process_rows_data_row E file row reader column_names w :
  column_names <> [] ->
  process_rows E file (ReaderRow row :: reader) column_names w
  = (Raise AttributeError, w).
Proof. destruct column_names; [done|]. reflexivity. Qed.

(** With the row given as the text of its line, the record of the
    two-row file reaches the loader with two keys, and the identifier
    returned is the store's. *)
Lemma process_row_text_two_keys :
  build_record test_env (PyStr (py "Travel,,Official"))
    [py "purpose"; py "expense_category"; py "program_type"]
  = Ok [(py "purpose", VStr (py "Travel"));
        (py "program_type", VStr (py "Official"))]
  /\ fst (process_row test_env (PyStr (py "Travel,,Official"))
       [py "purpose"; py "expense_category"; py "program_type"] empty_world)
     = Ok (Some 1%Z).
Proof. split; reflexivity. Qed.

(** C1: on the two-row file (three mapped header labels, one data row
    with a blank cell) the run stops with [AttributeError] before the
    loader is reached: [process_csvs] passes the row as the list
    [csv.reader] yields, and [process_row] calls [split] on it.  Nothing
    is inserted and no identifier is reported. *)
Theorem process_csvs_two_row_file :
  normalize_column_names test_env [py "PURPOSE"; py "CATEGORY"; py "PROGRAM"]
    empty_world
  = (Ok [py "purpose"; py "expense_category"; py "program_type"], empty_world)
  /\ process_csvs test_env [py "test.csv"] empty_world
     = (Raise AttributeError, empty_world)
  /\ forall E row column_names w,
       process_row E (PyList row) column_names w = (Raise AttributeError, w).
Proof. split_and!; reflexivity. Qed.

(** ** The value normalizer: office *)

Lemma normalize_entry_TypeError E value :
  normalize_entry E value = Raise TypeError.
Proof. reflexivity. Qed.

(** C5: an office value longer than 4 characters whose first 4 are
    numeric is cut after the prefix and handed to [normalize_entry],
    which raises [TypeError] at its first statement ([str.translate]
    called with two arguments); every other office value is returned
    unchanged.  So "0001John Smith" raises instead of giving
    "John Smith", and "NoPrefixHere" is returned as it is. *)
Theorem normalize_value_office (E : env) (value : str) :
  normalize_value E (py "office") value
  = (if (4 <? length value)%nat && str_isnumeric (ucd E) (take 4 value)
     then Raise TypeError else Ok (VStr value))
  /\ normalize_value E (py "office") (py "0001John Smith") = Raise TypeError
  /\ normalize_value E (py "office") (py "NoPrefixHere")
     = Ok (VStr (py "NoPrefixHere")).
Proof.
  split_and!; reflexivity.
Qed.

Lemma normalize_entry_py2_John_Smith :
  normalize_entry_py2 (py "John Smith") = py "Johnsmith".
Proof. reflexivity. Qed.

(** ** The log-and-exit path *)

Lemma log_error_and_exit_spec E error w :
  log_error_and_exit E error w
  = (Raise (SystemExit (error_output E error)),
     logged w (error_output E error)).
Proof. reflexivity. Qed.

(** ** The header normalizer *)

Lemma normalize_column_names_from_mapped E acc header_row w :
  Forall mapped header_row ->
  exists names,
    Forall2 (fun h c => dict_get expenditure_column_conversions h = Some c)
      header_row names
    /\ normalize_column_names_from E acc header_row w = (Ok (acc ++ names), w).
Proof.
  intros H. revert acc.
  induction H as [|h header_row [c Hc] _ IH]; intros acc.
  - exists []. by rewrite app_nil_r.
  - destruct (IH (acc ++ [c])) as (names & Hnames & Hrun).
    exists (c :: names). split; [by constructor|].
    cbn [normalize_column_names_from]. rewrite Hc, Hrun.
    by rewrite <- app_assoc.
Qed.

Lemma normalize_column_names_from_unmapped E acc header_row w :
  Exists (fun h => dict_get expenditure_column_conversions h = None) header_row ->
  exists h,
    h ∈ header_row
    /\ dict_get expenditure_column_conversions h = None
    /\ normalize_column_names_from E acc header_row w
       = (Raise (SystemExit (error_output E (ErrKeyError h))),
          {| stdout := stdout w ++ [py "No matching entry for " ++ h];
             log_file := log_file w ++ [error_output E (ErrKeyError h)];
             db := db w |}).
Proof.
  revert acc. induction header_row as [|h header_row IH]; intros acc Hex.
  - by apply Exists_nil in Hex.
  - destruct (dict_get expenditure_column_conversions h) as [c|] eqn:Hh.
    + apply Exists_cons in Hex as [Hex|Hex]; [congruence|].
      destruct (IH (acc ++ [c]) Hex) as (h' & Hin & Hnone & Hrun).
      exists h'. split_and!; [by right|done|].
      cbn [normalize_column_names_from]. by rewrite Hh.
    + exists h. split_and!; [by left|done|].
      cbn [normalize_column_names_from]. by rewrite Hh.
Qed.

(** C4: when every label of the header row is a key of the header
    mapping, the result has the length of the header row and holds at
    each position the column name of the label at that position, and
    nothing is printed or logged; when some label is not a key, the run
    ends: the first such label is printed, the log gets
    "<now> - Error message: <repr of the label> " and [SystemExit] is
    raised with that text. *)
Theorem normalize_column_names_spec (E : env) (w : world)
    (header_row : list str) :
  (Forall mapped header_row ->
   exists column_names,
     normalize_column_names E header_row w = (Ok column_names, w)
     /\ length column_names = length header_row
     /\ Forall2 (fun h c => dict_get expenditure_column_conversions h = Some c)
          header_row column_names)
  /\ (Exists (fun h => ~ mapped h) header_row ->
      exists h,
        h ∈ header_row /\ ~ mapped h
        /\ normalize_column_names E header_row w
           = (Raise (SystemExit (error_output E (ErrKeyError h))),
              {| stdout := stdout w ++ [py "No matching entry for " ++ h];
                 log_file := log_file w ++ [error_output E (ErrKeyError h)];
                 db := db w |})
        /\ error_output E (ErrKeyError h)
           = now E ++ py " - Error message: " ++ repr_str (ucd E) h
             ++ [chr " "; 10%N]).
Proof.
  split.
  - intros H.
    destruct (normalize_column_names_from_mapped E [] header_row w H)
      as (names & Hnames & Hrun).
    exists names. split_and!; [done| |done].
    symmetry. by eapply Forall2_length.
  - intros H.
    destruct (normalize_column_names_from_unmapped E [] header_row w)
      as (h & Hin & Hnone & Hrun).
    { apply Exists_exists in H as (h & Hin & Hh). apply Exists_exists.
      exists h. split; [done|]. by apply eq_None_not_Some. }
    exists h. split_and!; [done| |done|done].
    unfold mapped. by rewrite Hnone; intros [? ?].
Qed.

Lemma normalize_column_names_spec_witness :
  (exists column_names,
     normalize_column_names test_env [py "DATE"; py "AMOUNT"] empty_world
     = (Ok column_names, empty_world)
     /\ length column_names = 2
     /\ Forall2 (fun h c => dict_get expenditure_column_conversions h = Some c)
          [py "DATE"; py "AMOUNT"] column_names)
  /\ (exists h,
        h ∈ [py "DATE"; py "Amount"] /\ ~ mapped h
        /\ normalize_column_names test_env [py "DATE"; py "Amount"] empty_world
           = (Raise (SystemExit (error_output test_env (ErrKeyError h))),
              {| stdout := [py "No matching entry for " ++ h];
                 log_file := [error_output test_env (ErrKeyError h)];
                 db := [] |})
        /\ error_output test_env (ErrKeyError h)
           = now test_env ++ py " - Error message: " ++ repr_str ucd_none h
             ++ [chr " "; 10%N]).
Proof.
  split.
  - apply (proj1 (normalize_column_names_spec test_env empty_world
                    [py "DATE"; py "AMOUNT"])).
    repeat constructor; by eexists.
  - apply (proj2 (normalize_column_names_spec test_env empty_world
                    [py "DATE"; py "Amount"])).
    apply Exists_cons_tl, Exists_cons_hd. by intros [? ?].
Defined.

(** ** The loader *)

Lemma mapM_make_Identifier texts :
  mapM make_Identifier (VStr <$> texts) = Ok (Identifier <$> texts).
Proof.
  induction texts as [|t texts IH]; [done|].
  cbn [fmap list_fmap mapM make_Identifier obind] in *. by rewrite IH.
Qed.

Lemma mapM_make_Identifier_date pre d post :
  mapM make_Identifier ((VStr <$> pre) ++ VDate d :: post) = Raise TypeError.
Proof.
  induction pre as [|t pre IH]; [done|].
  cbn [fmap list_fmap app mapM make_Identifier obind] in *. by rewrite IH.
Qed.

Lemma as_string_Composed parts :
  as_string (Composed parts) = mjoin (as_string <$> parts).
Proof.
  cbn [as_string]. induction parts as [|p parts IH]; [done|].
  cbn [fmap list_fmap mjoin list_join]. by rewrite IH.
Qed.

Lemma as_string_SQL_join sep texts :
  as_string (SQL_join (SQL sep) (Identifier <$> texts))
  = str_join sep (quote_ident <$> texts).
Proof.
  unfold SQL_join. rewrite as_string_Composed.
  destruct texts as [|t texts]; [done|]. revert t.
  induction texts as [|t' texts IH]; intros t.
  - cbn. by rewrite app_nil_r.
  - specialize (IH t').
    change (mjoin (as_string <$>
              sql_join_parts (SQL sep) (Identifier <$> t :: t' :: texts)))
      with (quote_ident t ++ sep ++
            mjoin (as_string <$>
              sql_join_parts (SQL sep) (Identifier <$> t' :: texts))).
    rewrite IH. done.
Qed.

Lemma as_string_insert_query keys values :
  as_string (insert_query keys values) = insert_text keys values.
Proof.
  unfold insert_query, insert_text. rewrite as_string_Composed.
  cbn [fmap list_fmap mjoin list_join].
  rewrite !as_string_SQL_join. cbn [as_string]. by rewrite app_nil_r.
Qed.

(** C2: the loader wraps the values of the record in [sql.Identifier],
    as it does its keys (line 163).  For every record of text values the
    one statement it sends reads
    INSERT INTO expenditures ("k1", ...) VALUES ("v1", ...) RETURNING id:
    each value stands between double quotes, where the store reads the
    name of a column and not a value, and nothing is bound as a
    parameter.  Whether a row comes back is the store's answer to that
    statement.  A store that refuses a column name in the place of a
    value, as PostgreSQL does, ends every call in the log-and-exit path
    with nothing inserted, so that the loader never returns the
    identifier its docstring promises.  On [{'purpose': 'Travel'}] the
    text holds VALUES ("Travel"), and with a store that refuses it the
    call is logged and exits. *)
Theorem insert_into_db_values_as_identifiers (E : env) (w : world)
    (key_val_dict : dict nvalue) (texts : list str) :
  let keys := dict_keys key_val_dict in
  let stmt := {| stmt_query := insert_query keys texts; stmt_vars := None |} in
  as_string (stmt_query stmt)
  = py "INSERT INTO expenditures ("
    ++ str_join (py ", ") (quote_ident <$> keys)
    ++ py ") VALUES (" ++ str_join (py ", ") (quote_ident <$> texts)
    ++ py ") RETURNING id"
  /\ (dict_values key_val_dict = VStr <$> texts ->
      db_connect E (db w) = None ->
      match db_execute E (db w) stmt with
      | DbRow id =>
          insert_into_db E key_val_dict w = (Ok (Some id), committed w stmt)
      | DbError msg =>
          insert_into_db E key_val_dict w
          = (Raise (SystemExit (error_output E (ErrPsycopg2 msg))),
             logged w (error_output E (ErrPsycopg2 msg)))
      end)
  /\ (dict_values key_val_dict = VStr <$> texts ->
      (exists msg, db_execute E (db w) stmt = DbError msg) ->
      exists e w',
        insert_into_db E key_val_dict w = (Raise e, w') /\ db w' = db w)
  /\ as_string (insert_query [py "purpose"] [py "Travel"])
     = py "INSERT INTO expenditures (" ++ [dquote] ++ py "purpose" ++ [dquote]
       ++ py ") VALUES (" ++ [dquote] ++ py "Travel" ++ [dquote]
       ++ py ") RETURNING id"
  /\ insert_into_db failing_store_env [(py "purpose", VStr (py "Travel"))]
       empty_world
     = (Raise (SystemExit
                 (error_output failing_store_env
                    (ErrPsycopg2 (py "relation does not exist")))),
        logged empty_world
          (error_output failing_store_env
             (ErrPsycopg2 (py "relation does not exist")))).
Proof.
  intros keys stmt.
  assert (dict_values key_val_dict = VStr <$> texts ->
          db_connect E (db w) = None ->
          match db_execute E (db w) stmt with
          | DbRow id =>
              insert_into_db E key_val_dict w
              = (Ok (Some id), committed w stmt)
          | DbError msg =>
              insert_into_db E key_val_dict w
              = (Raise (SystemExit (error_output E (ErrPsycopg2 msg))),
                 logged w (error_output E (ErrPsycopg2 msg)))
          end) as Hrun.
  { intros Hvalues Hconnect.
    unfold insert_into_db, io_bind, psycopg2_connect, io_lift.
    rewrite Hconnect, Hvalues, !mapM_make_Identifier. cbn [obind].
    change (SQL_format _ _) with (Ok (stmt_query stmt)).
    unfold cur_execute_fetchone_commit.
    change {| stmt_query := stmt_query stmt; stmt_vars := None |} with stmt.
    destruct (db_execute E (db w) stmt); reflexivity. }
  split_and!.
  - apply as_string_insert_query.
  - exact Hrun.
  - intros Hvalues [msg Hmsg].
    destruct (db_connect E (db w)) as [refused|] eqn:Hconnect.
    + unfold insert_into_db, io_bind, psycopg2_connect. rewrite Hconnect.
      by eexists _, _.
    + specialize (Hrun Hvalues eq_refl). rewrite Hmsg in Hrun.
      rewrite Hrun. by eexists _, _.
  - reflexivity.
  - reflexivity.
Qed.

(** A record that holds a parsed date does not reach the store. *)
Lemma insert_into_db_date E w key_val_dict pre d post :
  db_connect E (db w) = None ->
  dict_values key_val_dict = (VStr <$> pre) ++ VDate d :: post ->
  insert_into_db E key_val_dict w = (Raise TypeError, w).
Proof.
  intros Hconnect Hvalues.
  unfold insert_into_db, io_bind, psycopg2_connect, io_lift.
  rewrite Hconnect, Hvalues, mapM_make_Identifier, mapM_make_Identifier_date.
  reflexivity.
Qed.

Lemma insert_into_db_connect_fails E w key_val_dict msg :
  db_connect E (db w) = Some msg ->
  insert_into_db E key_val_dict w = (Raise (OperationalError msg), w).
Proof.
  intros Hconnect. unfold insert_into_db, io_bind, psycopg2_connect.
  by rewrite Hconnect.
Qed.

(** ** Which errors are logged, and what stops the run *)

Lemma normalize_value_date E key value :
  key ∈ date_keys ->
  normalize_value E key value
  = (let! d := strptime_B_d_Y (ucd E) value in Ok (VDate d)).
Proof.
  unfold date_keys. rewrite !elem_of_cons, elem_of_nil.
  intros [->|[->|[->|[]]]]; reflexivity.
Qed.

Lemma normalize_value_amount E value :
  normalize_value E (py "amount") value
  = (let! x := py_float (ucd E) value in Ok (VStr (format_f 2 x))).
Proof. reflexivity. Qed.

Lemma strptime_raises_ValueError U value e :
  strptime_B_d_Y U value = Raise e -> e = ValueError.
Proof.
  unfold strptime_B_d_Y. intros H.
  repeat case_match; congruence.
Qed.

Lemma py_float_raises_ValueError U value e :
  py_float U value = Raise e -> e = ValueError.
Proof.
  unfold py_float. intros H.
  repeat case_match; congruence.
Qed.

(** A date or an amount that does not parse raises [ValueError]. *)
Lemma normalize_value_parse_error E key value e :
  key ∈ date_keys \/ key = py "amount" ->
  normalize_value E key value = Raise e -> e = ValueError.
Proof.
  intros [Hkey| ->].
  - rewrite (normalize_value_date _ _ _ Hkey).
    destruct (strptime_B_d_Y (ucd E) value) eqn:Hp; [done|].
    cbn [obind]. intros [= <-]. by eapply strptime_raises_ValueError.
  - rewrite normalize_value_amount.
    destruct (py_float (ucd E) value) eqn:Hp; [done|].
    cbn [obind]. intros [= <-]. by eapply py_float_raises_ValueError.
Qed.

(** Once the rows of a file, or the files of a run, fail on a prefix,
    what follows the prefix is never looked at. *)
Lemma process_rows_stops E file reader1 reader2 column_names w e w' :
  process_rows E file reader1 column_names w = (Raise e, w') ->
  process_rows E file (reader1 ++ reader2) column_names w = (Raise e, w').
Proof.
  revert column_names w.
  induction reader1 as [|item reader1 IH]; intros column_names w; [done|].
  cbn [app process_rows]. destruct item as [row|err line_num|err]; [|done..].
  destruct column_names as [|c column_names].
  - unfold io_bind.
    destruct (normalize_column_names E row w) as [[names|e'] w1]; [|done].
    apply IH.
  - unfold io_bind.
    destruct (process_row E (PyList row) (c :: column_names) w)
      as [[id|e'] w1]; [|done].
    destruct (print (str_of_row id) w1) as [[[]|e'] w2]; [|done].
    apply IH.
Qed.

Lemma process_files_stops E files1 files2 w e w' :
  process_files E files1 w = (Raise e, w') ->
  process_files E (files1 ++ files2) w = (Raise e, w').
Proof.
  revert w. induction files1 as [|file files1 IH]; intros w; [done|].
  cbn [app process_files]. unfold io_bind.
  destruct (open_reader E (DATA_PATH ++ file) w) as [[reader|e'] w1]; [|done].
  destruct (process_rows E file reader [] w1) as [[[]|e'] w2]; [|done].
  apply IH.
Qed.

Lemma process_csvs_stops E files1 files2 w e w' :
  process_files E files1 w = (Raise e, w') ->
  process_csvs E (files1 ++ files2) w = (Raise e, w').
Proof.
  intros H. unfold process_csvs.
  by rewrite (io_bind_raise _ _ _ _ _ (process_files_stops _ _ files2 _ _ _ H)).
Qed.

(** C3, as the code has it.  Three failures go through
    [log_error_and_exit], which appends
    "<now> - Error message: <message> " and a newline to the log file
    and raises [SystemExit] with the same text: a header label without
    mapping, an error the store raises on the statement, and a
    [csv.Error] while reading.  A date or an amount that does not parse
    raises [ValueError], which ends [process_row] at that cell.  Nothing
    is recovered or retried: once a row or a file has failed, the rows
    and files after it are not processed. *)
Theorem errors_end_the_run (E : env) (w : world) :
  (forall error,
     log_error_and_exit E error w
     = (Raise (SystemExit (error_output E error)),
        logged w (error_output E error))
     /\ error_output E error
        = now E ++ py " - Error message: " ++ str_of_error E error
          ++ [chr " "; 10%N])
  /\ (forall header_row,
        Exists (fun h => ~ mapped h) header_row ->
        exists h,
          h ∈ header_row
          /\ normalize_column_names E header_row w
             = (Raise (SystemExit (error_output E (ErrKeyError h))),
                logged
                  {| stdout := stdout w ++ [py "No matching entry for " ++ h];
                     log_file := log_file w; db := db w |}
                  (error_output E (ErrKeyError h))))
  /\ (forall key_val_dict texts msg,
        dict_values key_val_dict = VStr <$> texts ->
        db_connect E (db w) = None ->
        db_execute E (db w)
          {| stmt_query := insert_query (dict_keys key_val_dict) texts;
             stmt_vars := None |} = DbError msg ->
        insert_into_db E key_val_dict w
        = (Raise (SystemExit (error_output E (ErrPsycopg2 msg))),
           logged w (error_output E (ErrPsycopg2 msg))))
  /\ (forall file e_repr line_num reader column_names,
        process_rows E file (ReaderError e_repr line_num :: reader)
          column_names w
        = (Raise (SystemExit (error_output E (ErrCsv e_repr file line_num))),
           logged w (error_output E (ErrCsv e_repr file line_num))))
  /\ (forall row pre pre_cols nvs value key post post_cols e,
        str_split_on (chr ",") row = pre ++ value :: post ->
        Forall3 (fun v k nv => normalize_value E k v = Ok nv) pre pre_cols nvs ->
        key ∈ date_keys \/ key = py "amount" ->
        normalize_value E key value = Raise e ->
        e = ValueError
        /\ process_row E (PyStr row) (pre_cols ++ key :: post_cols) w
           = (Raise ValueError, w))
  /\ (forall file reader1 reader2 column_names e w',
        process_rows E file reader1 column_names w = (Raise e, w') ->
        process_rows E file (reader1 ++ reader2) column_names w
        = (Raise e, w'))
  /\ (forall files1 files2 e w',
        process_files E files1 w = (Raise e, w') ->
        process_csvs E (files1 ++ files2) w = (Raise e, w')).
Proof.
  split_and!.
  - intros error. split; reflexivity.
  - intros header_row H.
    destruct (normalize_column_names_from_unmapped E [] header_row w)
      as (h & Hin & _ & Hrun).
    { apply Exists_exists in H as (h & Hin & Hh). apply Exists_exists.
      exists h. split; [done|]. by apply eq_None_not_Some. }
    exists h. split; [done|]. exact Hrun.
  - intros key_val_dict texts msg Hvalues Hconnect Hexec.
    unfold insert_into_db, io_bind, psycopg2_connect, io_lift.
    rewrite Hconnect, Hvalues, !mapM_make_Identifier. cbn [obind].
    change (SQL_format _ _)
      with (Ok (insert_query (dict_keys key_val_dict) texts)).
    unfold cur_execute_fetchone_commit. rewrite Hexec. reflexivity.
  - reflexivity.
  - intros row pre pre_cols nvs value key post post_cols e Hrow Hpre Hkey Hraise.
    assert (e = ValueError) as -> by by eapply normalize_value_parse_error.
    split; [done|].
    apply process_row_not_built. rewrite build_record_str, Hrow.
    by eapply build_from_raise.
  - intros. by apply process_rows_stops.
  - intros. by apply process_csvs_stops.
Qed.

Lemma errors_end_the_run_witness :
  process_row test_env (PyStr (py "Travel,abc"))
    [py "purpose"; py "amount"] empty_world
  = (Raise ValueError, empty_world).
Proof.
  refine (proj2 (proj1 (proj2 (proj2 (proj2 (proj2
    (errors_end_the_run test_env empty_world)))))
    (py "Travel,abc") [py "Travel"] [py "purpose"] [VStr (py "Travel")]
    (py "abc") (py "amount") [] [] ValueError _ _ _ _)).
  - reflexivity.
  - repeat constructor.
  - by right.
  - reflexivity.
Defined.

(** The claim of C3 fails on a date that does not parse: the run ends
    with [ValueError], not through the log-and-exit path, and the log
    file is left as it was.  The same holds for an amount. *)
Lemma date_error_is_not_logged :
  process_row test_env (PyStr (py "13-05-2015")) [py "record_date"] empty_world
  = (Raise ValueError, empty_world)
  /\ process_row test_env (PyStr (py "abc")) [py "amount"] empty_world
     = (Raise ValueError, empty_world)
  /\ log_file empty_world = [].
Proof. split_and!; reflexivity. Qed.

(** ** Dictionaries *)

Lemma dict_get_set {V} (d : dict V) k v k' :
  dict_get (dict_set d k v) k'
  = if decide (k' = k) then Some v else dict_get d k'.
Proof.
  induction d as [|[k0 v0] d IH]; cbn [dict_set dict_get].
  - done.
  - destruct (decide (k = k0)) as [->|Hne]; cbn [dict_get].
    + by destruct (decide (k' = k0)).
    + rewrite IH. destruct (decide (k' = k0)) as [->|]; [|done].
      by rewrite decide_False.
Qed.

Lemma dict_keys_set {V} (d : dict V) k v k' :
  k' ∈ dict_keys (dict_set d k v) <-> k' = k \/ k' ∈ dict_keys d.
Proof.
  unfold dict_keys. induction d as [|[k0 v0] d IH]; cbn [dict_set fmap list_fmap].
  - rewrite list_elem_of_singleton, elem_of_nil. cbn. tauto.
  - destruct (decide (k = k0)) as [->|Hne]; cbn [fmap list_fmap fst];
      rewrite !elem_of_cons; cbn [fst]; [|rewrite IH]; tauto.
Qed.

Lemma dict_keys_set_NoDup {V} (d : dict V) k v :
  NoDup (dict_keys d) -> NoDup (dict_keys (dict_set d k v)).
Proof.
  unfold dict_keys. induction d as [|[k0 v0] d IH]; cbn [dict_set fmap list_fmap].
  - intros _. apply NoDup_singleton.
  - cbn [fst]. intros Hnd. apply list.NoDup_cons in Hnd as [Hnotin Hd].
    destruct (decide (k = k0)) as [->|Hne]; cbn [fmap list_fmap fst].
    + by apply list.NoDup_cons.
    + apply list.NoDup_cons. split; [|by apply IH].
      intros Hin. apply (dict_keys_set d k v k0) in Hin.
      destruct Hin as [->|Hin]; done.
Qed.

Lemma dict_values_set_Forall {V} (P : V -> Prop) (d : dict V) k v :
  P v -> Forall P (dict_values d) -> Forall P (dict_values (dict_set d k v)).
Proof.
  unfold dict_values. intros Hv.
  induction d as [|[k0 v0] d IH]; cbn [dict_set fmap list_fmap snd].
  - intros _. by repeat constructor.
  - intros Hall. apply list.Forall_cons in Hall as [H0 Hd].
    destruct (decide (k = k0)); cbn [fmap list_fmap snd];
      apply list.Forall_cons; auto.
Qed.

(** ** The record that is built *)

Lemma store_fields_cons d k v fields :
  store_fields d ((k, v) :: fields)
  = store_fields (if truthy v then dict_set d k v else d) fields.
Proof. reflexivity. Qed.

Lemma store_fields_truthy d fields :
  Forall (fun v => truthy v = true) (dict_values d) ->
  Forall (fun v => truthy v = true) (dict_values (store_fields d fields)).
Proof.
  revert d. induction fields as [|[k v] fields IH]; intros d Hd; [done|].
  rewrite store_fields_cons. apply IH.
  destruct (truthy v) eqn:Hv; [|done].
  by apply dict_values_set_Forall.
Qed.

Lemma store_fields_NoDup d fields :
  NoDup (dict_keys d) -> NoDup (dict_keys (store_fields d fields)).
Proof.
  revert d. induction fields as [|[k v] fields IH]; intros d Hd; [done|].
  rewrite store_fields_cons. apply IH.
  destruct (truthy v); [|done]. by apply dict_keys_set_NoDup.
Qed.

Lemma store_fields_keys d fields k :
  k ∈ dict_keys (store_fields d fields) -> k ∈ dict_keys d \/ k ∈ fields.*1.
Proof.
  revert d. induction fields as [|[k0 v] fields IH]; intros d; [by left|].
  rewrite store_fields_cons. intros Hin. apply IH in Hin.
  cbn [fmap list_fmap fst]. rewrite elem_of_cons.
  destruct Hin as [Hin|Hin]; [|by auto].
  destruct (truthy v); [|by auto].
  apply dict_keys_set in Hin. destruct Hin as [->|Hin]; auto.
Qed.

Lemma store_fields_get_other d fields k :
  k ∉ fields.*1 -> dict_get (store_fields d fields) k = dict_get d k.
Proof.
  revert d. induction fields as [|[k0 v] fields IH]; intros d; [done|].
  cbn [fmap list_fmap fst]. rewrite not_elem_of_cons. intros [Hne Hnotin].
  rewrite store_fields_cons, (IH _ Hnotin).
  destruct (truthy v); [|done].
  by rewrite dict_get_set, decide_False.
Qed.

Lemma store_fields_get d cols nvs i k nv :
  NoDup cols -> length cols = length nvs ->
  cols !! i = Some k -> nvs !! i = Some nv ->
  dict_get d k = None ->
  dict_get (store_fields d (zip cols nvs)) k
  = if truthy nv then Some nv else None.
Proof.
  revert d nvs i.
  induction cols as [|k0 cols IH]; intros d nvs i Hnd Hlen Hk Hnv Hd; [done|].
  destruct nvs as [|nv0 nvs]; [done|].
  apply list.NoDup_cons in Hnd as [Hnotin Hnd].
  cbn [zip zip_with]. rewrite store_fields_cons.
  destruct i as [|i]; cbn in Hk, Hnv.
  - injection Hk as ->. injection Hnv as ->.
    rewrite store_fields_get_other.
    + destruct (truthy nv); [|done]. by rewrite dict_get_set, decide_True.
    + rewrite fst_zip; [done|]. cbn in Hlen. lia.
  - apply (IH _ nvs i); [done|cbn in Hlen; lia|done|done|].
    assert (k <> k0) as Hne.
    { intros ->. apply Hnotin. by eapply list_elem_of_lookup_2. }
    destruct (truthy nv0); [|done]. by rewrite dict_get_set, decide_False.
Qed.

(** C9, as the code has it: when every cell of the row normalizes, the
    record is built, none of its values is empty, its keys are column
    names of the row; and when no column name occurs twice, the field at
    each position is left out if its cell normalized to the empty string
    and is present with its normalized value otherwise. *)
Theorem build_record_omits_empty (E : env) (row : str)
    (column_names : list str) (nvs : list nvalue) :
  Forall3 (fun v k nv => normalize_value E k v = Ok nv)
    (str_split_on (chr ",") row) column_names nvs ->
  exists d,
    build_record E (PyStr row) column_names = Ok d
    /\ Forall (fun v => truthy v = true) (dict_values d)
    /\ (forall k, k ∈ dict_keys d -> k ∈ column_names)
    /\ (NoDup column_names ->
        forall i k nv,
          column_names !! i = Some k -> nvs !! i = Some nv ->
          dict_get d k = if truthy nv then Some nv else None).
Proof.
  intros H. exists (store_fields [] (zip column_names nvs)).
  assert (length column_names = length nvs) as Hlen.
  { apply Forall3_length_lr in H as Hlr. apply Forall3_length_lm in H as Hlm.
    lia. }
  split_and!.
  - rewrite build_record_str. by apply build_from_ok.
  - by apply store_fields_truthy.
  - intros k Hin. apply store_fields_keys in Hin as [Hin|Hin].
    + by apply elem_of_nil in Hin.
    + rewrite fst_zip in Hin; [done|lia].
  - intros Hnd i k nv Hk Hnv. by apply (store_fields_get [] _ _ i).
Qed.

Lemma build_record_omits_empty_witness :
  exists d,
    build_record test_env (PyStr (py "Travel,,Official"))
      [py "purpose"; py "expense_category"; py "program_type"] = Ok d
    /\ Forall (fun v => truthy v = true) (dict_values d)
    /\ (forall k, k ∈ dict_keys d ->
          k ∈ [py "purpose"; py "expense_category"; py "program_type"])
    /\ (NoDup [py "purpose"; py "expense_category"; py "program_type"] ->
        forall i k nv,
          [py "purpose"; py "expense_category"; py "program_type"] !! i = Some k ->
          [VStr (py "Travel"); VStr []; VStr (py "Official")] !! i = Some nv ->
          dict_get d k = if truthy nv then Some nv else None).
Proof.
  apply (build_record_omits_empty test_env (py "Travel,,Official")).
  repeat constructor.
Defined.

(** The claim of C9 fails when a column name occurs twice: the first
    cell normalizes to the empty string, yet the record has its field,
    with the value of the second cell.  And a cell of blanks in a column
    without a rule is kept as it is. *)
Lemma build_record_repeated_column :
  normalize_value test_env (py "purpose") (py "") = Ok (VStr [])
  /\ build_record test_env (PyStr (py ",b")) [py "purpose"; py "purpose"]
     = Ok [(py "purpose", VStr (py "b"))]
  /\ build_record test_env (PyStr (py "  ")) [py "purpose"]
     = Ok [(py "purpose", VStr (py "  "))].
Proof. split_and!; reflexivity. Qed.

(** ** Rows that are shorter or longer than the header *)

Lemma build_from_take E cells cols d :
  build_from E cells cols d = build_from E cells (take (length cells) cols) d.
Proof.
  revert cols d. induction cells as [|v cells IH]; intros cols d; [done|].
  destruct cols as [|k cols]; [done|].
  cbn [length take build_from].
  destruct (normalize_value E k v); cbn [obind]; [|done]. apply IH.
Qed.

(** C8, as the code has it: the lengths of the row and of the header
    are not compared.  A row with fewer cells than the header is
    processed against the first column names, the others are ignored,
    and the record goes to the loader; a row with more cells than the
    header fails with [IndexError] at the first cell that has no column
    name, once the cells before it are normalized and before anything is
    inserted. *)
Theorem process_row_length_mismatch (E : env) (w : world) (row : str)
    (column_names : list str) (nvs : list nvalue) :
  let cells := str_split_on (chr ",") row in
  (length cells < length column_names ->
   Forall3 (fun v k nv => normalize_value E k v = Ok nv)
     cells (take (length cells) column_names) nvs ->
   process_row E (PyStr row) column_names w
   = insert_into_db E (store_fields [] (zip column_names nvs)) w)
  /\ (length column_names < length cells ->
      Forall3 (fun v k nv => normalize_value E k v = Ok nv)
        (take (length column_names) cells) column_names nvs ->
      process_row E (PyStr row) column_names w = (Raise IndexError, w)).
Proof.
  intros cells. split.
  - intros Hlen H. apply process_row_built.
    rewrite build_record_str. fold cells. rewrite build_from_take.
    rewrite (build_from_ok _ _ _ _ _ H). f_equal. f_equal.
    apply Forall3_length_lr in H as Hlr.
    rewrite <- (take_drop (length cells) column_names) at 2.
    rewrite zip_with_app_l.
    assert (drop (length (take (length cells) column_names)) nvs = []) as ->.
    { apply drop_ge. apply Forall3_length_lm in H. lia. }
    rewrite zip_with_nil_r, app_nil_r.
    f_equal. symmetry. apply take_ge. apply Forall3_length_lm in H. lia.
  - intros Hlen H. apply process_row_not_built.
    rewrite build_record_str. fold cells.
    destruct (drop (length column_names) cells) as [|v rest] eqn:Hdrop.
    { apply (f_equal length) in Hdrop. rewrite length_drop in Hdrop.
      cbn in Hdrop. lia. }
    pose proof (build_from_app E _ _ _ (v :: rest) [] [] H) as Happ.
    rewrite <- Hdrop, take_drop, app_nil_r in Happ.
    rewrite Happ, Hdrop. done.
Qed.

Lemma process_row_length_mismatch_witness :
  process_row test_env (PyStr (py "Travel,a,b,c"))
    [py "purpose"; py "expense_category"; py "program_type"] empty_world
  = (Raise IndexError, empty_world).
Proof.
  refine (proj2 (process_row_length_mismatch test_env empty_world
    (py "Travel,a,b,c")
    [py "purpose"; py "expense_category"; py "program_type"]
    [VStr (py "Travel"); VStr (py "a"); VStr (py "b")]) _ _).
  - vm_compute. lia.
  - repeat constructor.
Defined.

(** The claim of C8 fails on a row of one cell under a header of three:
    the row is processed and inserted. *)
Lemma short_row_is_inserted :
  length (str_split_on (chr ",") (py "Travel")) = 1
  /\ process_row test_env (PyStr (py "Travel"))
       [py "purpose"; py "expense_category"; py "program_type"] empty_world
     = (Ok (Some 1%Z),
        {| stdout := []; log_file := [];
           db := [ {| stmt_query := insert_query [py "purpose"] [py "Travel"];
                      stmt_vars := None |} ] |}).
Proof. split; reflexivity. Qed.

(** ** The pattern of [strptime] *)

Section StrptimeFacts.
Context (U : unicode_db).

Lemma ci_eq_functional p q c :
  ci_eq U p c = true -> ci_eq U q c = true -> p = q.
Proof.
  unfold ci_eq. destruct (is_ascii c).
  - intros Hp%N.eqb_eq Hq%N.eqb_eq. congruence.
  - intros Hp%bool_decide_eq_true Hq%bool_decide_eq_true. congruence.
Qed.

Lemma re_literal_ci_sound pat s t r :
  (t, r) ∈ re_literal_ci U pat s ->
  s = t ++ r /\ Forall2 (fun p c => ci_eq U p c = true) pat t.
Proof.
  revert s t. induction pat as [|p pat IH]; intros s t.
  - cbn. intros [=-> ->]%list_elem_of_singleton. by split.
  - destruct s as [|c s]; cbn [re_literal_ci]; [by intros ?%elem_of_nil|].
    destruct (ci_eq U p c) eqn:Hpc; [|by intros ?%elem_of_nil].
    intros ([t' r'] & Hin & Hin')%list_elem_of_bind.
    apply list_elem_of_singleton in Hin as [=-> ->].
    apply IH in Hin' as [-> H]. split; [done|]. by constructor.
Qed.

Lemma re_literal_ci_complete pat t r :
  Forall2 (fun p c => ci_eq U p c = true) pat t ->
  re_literal_ci U pat (t ++ r) = [(t, r)].
Proof.
  induction 1 as [|p c pat t Hpc _ IH]; [done|].
  cbn [app re_literal_ci]. by rewrite Hpc, IH.
Qed.

Lemma re_literal_ci_differ pat pat' t r :
  differ pat pat' = true ->
  Forall2 (fun p c => ci_eq U p c = true) pat t ->
  re_literal_ci U pat' (t ++ r) = [].
Proof.
  intros Hd H. revert pat' Hd.
  induction H as [|p c pat t Hpc _ IH]; intros pat' Hd; [done|].
  destruct pat' as [|p' pat']; [done|].
  cbn [differ] in Hd. cbn [app re_literal_ci].
  destruct (ci_eq U p' c) eqn:Hp'c; [|done].
  assert (p = p') as <- by by eapply ci_eq_functional.
  rewrite N.eqb_refl in Hd. by rewrite IH.
Qed.

(** Among names that differ pairwise, only the one that matches the
    text gives a match. *)
Lemma re_names_unique names name t r :
  Forall (fun name' => name' = name \/ differ name name' = true) names ->
  NoDup names -> name ∈ names ->
  Forall2 (fun p c => ci_eq U p c = true) name t ->
  (name' ← names; re_literal_ci U name' (t ++ r)) = [(t, r)].
Proof.
  intros Hall Hnd Hin Ht.
  induction names as [|n names IH]; [by apply elem_of_nil in Hin|].
  apply list.Forall_cons in Hall as [Hn Hall].
  apply list.NoDup_cons in Hnd as [Hnotin Hnd].
  rewrite bind_cons. apply elem_of_cons in Hin as [<-|Hin].
  - rewrite (re_literal_ci_complete _ _ _ Ht).
    assert ((name' ← names; re_literal_ci U name' (t ++ r)) = []) as ->; [|done].
    clear IH Hnd. induction names as [|n' names IH]; [done|].
    apply list.Forall_cons in Hall as [Hn' Hall].
    apply not_elem_of_cons in Hnotin as [Hne Hnotin].
    rewrite bind_cons, IH by done.
    destruct Hn' as [->|Hd]; [done|].
    by rewrite (re_literal_ci_differ _ _ _ _ Hd Ht).
  - destruct Hn as [->|Hd]; [done|].
    rewrite (re_literal_ci_differ _ _ _ _ Hd Ht). by apply IH.
Qed.

Lemma re_B_names_differ name :
  name ∈ re_B_names ->
  Forall (fun name' => name' = name \/ differ name name' = true) re_B_names.
Proof.
  unfold re_B_names. cbn [fmap list_fmap].
  rewrite !elem_of_cons, elem_of_nil.
  intros H. repeat (destruct H as [->|H]; [
    repeat (apply list.Forall_cons; split;
            [first [by left | right; reflexivity]|]); apply Forall_nil_2 |]).
  done.
Qed.

Lemma re_B_names_NoDup : NoDup re_B_names.
Proof. apply (bool_decide_unpack _). by vm_compute. Qed.

Lemma re_B_complete B r :
  matches_B U B -> re_B U (B ++ r) = [(B, r)].
Proof.
  intros (name & Hin & HB). unfold re_B.
  apply (re_names_unique _ name); auto using re_B_names_differ, re_B_names_NoDup.
Qed.

Lemma re_B_sound s t r :
  (t, r) ∈ re_B U s -> s = t ++ r /\ matches_B U t.
Proof.
  unfold re_B. intros (name & Hin & Hname)%list_elem_of_bind.
  apply re_literal_ci_sound in Hin as [-> H]. split; [done|]. by exists name.
Qed.
End StrptimeFacts.

(** Replaces the character literals of the goal by their code points. *)
Ltac eval_chr :=
  repeat match goal with
         | |- context [chr ?a] =>
             let v := eval vm_compute in (chr a) in change (chr a) with v
         end.

Section StrptimeParts.
Context (U : unicode_db).

Lemma re_char_sound c s t r :
  (t, r) ∈ re_char c s -> t = [c] /\ s = c :: r.
Proof.
  destruct s as [|c' s]; cbn; [by intros ?%elem_of_nil|].
  destruct (N.eqb_spec c' c) as [->|]; [|by intros ?%elem_of_nil].
  by intros [=-> ->]%list_elem_of_singleton.
Qed.

Lemma re_range_sound lo hi s t r :
  (t, r) ∈ re_range lo hi s ->
  exists c, t = [c] /\ s = c :: r /\ in_range lo hi c.
Proof.
  destruct s as [|c s]; cbn; [by intros ?%elem_of_nil|].
  destruct (N.leb_spec lo c), (N.leb_spec c hi); cbn;
    try by intros ?%elem_of_nil.
  intros [=-> ->]%list_elem_of_singleton. by exists c.
Qed.

Lemma re_digit_sound s t r :
  (t, r) ∈ re_digit U s ->
  exists c, t = [c] /\ s = c :: r /\ is_Some (decimal_char U c).
Proof.
  destruct s as [|c s]; cbn; [by intros ?%elem_of_nil|].
  destruct (decimal_char U c) eqn:Hc; [|by intros ?%elem_of_nil].
  intros [=-> ->]%list_elem_of_singleton. exists c. by rewrite Hc.
Qed.

Lemma re_seq_sound a b s t r :
  (t, r) ∈ re_seq a b s ->
  exists t1 r1 t2, (t1, r1) ∈ a s /\ (t2, r) ∈ b r1 /\ t = t1 ++ t2.
Proof.
  unfold re_seq. intros ([t1 r1] & Hin & H1)%list_elem_of_bind.
  apply list_elem_of_bind in Hin as ([t2 r2] & Hin & H2).
  apply list_elem_of_singleton in Hin as [=-> ->]. by exists t1, r1, t2.
Qed.

Lemma re_d_sound s t r :
  (t, r) ∈ re_d U s -> s = t ++ r /\ matches_d U t.
Proof.
  unfold re_d. rewrite !elem_of_app.
  intros [H|[H|[H|[H|H]]]].
  - apply re_seq_sound in H as (t1 & r1 & t2 & [-> ->]%re_char_sound
                                  & (c & -> & -> & Hc)%re_range_sound & ->).
    split; [done|]. by constructor.
  - apply re_seq_sound in H as (t1 & r1 & t2 & (c1 & -> & -> & Hc1)%re_range_sound
                                  & (c2 & -> & -> & Hc2)%re_digit_sound & ->).
    split; [done|]. by constructor.
  - apply re_seq_sound in H as (t1 & r1 & t2 & [-> ->]%re_char_sound
                                  & (c & -> & -> & Hc)%re_range_sound & ->).
    split; [done|]. by constructor.
  - apply re_range_sound in H as (c & -> & -> & Hc).
    split; [done|]. by constructor.
  - apply re_seq_sound in H as (t1 & r1 & t2 & [-> ->]%re_char_sound
                                  & (c & -> & -> & Hc)%re_range_sound & ->).
    split; [done|]. by constructor.
Qed.

Lemma re_Y_sound s t r :
  (t, r) ∈ re_Y U s -> s = t ++ r /\ matches_Y U t.
Proof.
  unfold re_Y.
  intros (t1 & r1 & t' & (c1 & -> & -> & H1)%re_digit_sound & H & ->)%re_seq_sound.
  apply re_seq_sound in H
    as (t2 & r2 & t'' & (c2 & -> & -> & H2)%re_digit_sound & H & ->).
  apply re_seq_sound in H
    as (t3 & r3 & t4 & (c3 & -> & -> & H3)%re_digit_sound
          & (c4 & -> & -> & H4)%re_digit_sound & ->).
  split; [done|]. split; [done|]. by repeat constructor.
Qed.

Lemma re_Y_complete Y : matches_Y U Y -> re_Y U Y = [(Y, [])].
Proof.
  intros [Hlen HY].
  destruct Y as [|c1 [|c2 [|c3 [|c4 [|]]]]]; try done.
  apply list.Forall_cons in HY as [[v1 H1] HY].
  apply list.Forall_cons in HY as [[v2 H2] HY].
  apply list.Forall_cons in HY as [[v3 H3] HY].
  apply list.Forall_cons in HY as [[v4 H4] _].
  unfold re_Y, re_seq, re_digit. by rewrite H1; cbn; rewrite H2; cbn;
    rewrite H3; cbn; rewrite H4.
Qed.

Lemma range_0_1 c :
  in_range (chr "0") (chr "1") c -> c = 48%N \/ c = 49%N.
Proof. unfold in_range. vm_compute (chr _). lia. Qed.

Lemma range_1_2 c :
  in_range (chr "1") (chr "2") c -> c = 49%N \/ c = 50%N.
Proof. unfold in_range. vm_compute (chr _). lia. Qed.

Lemma range_1_9 c :
  in_range (chr "1") (chr "9") c ->
  c = 49%N \/ c = 50%N \/ c = 51%N \/ c = 52%N \/ c = 53%N \/ c = 54%N
  \/ c = 55%N \/ c = 56%N \/ c = 57%N.
Proof. unfold in_range. vm_compute (chr _). lia. Qed.

Lemma decimal_not_hyphen c :
  is_Some (decimal_char U c) -> (c =? chr "-")%N = false.
Proof.
  intros [v Hv]. apply N.eqb_neq. intros ->. by vm_compute in Hv.
Qed.

(** The day is the text before the next hyphen: of the ways [re_d]
    matches, one is followed by a hyphen. *)
Lemma re_d_then_hyphen {A} d rest (f : str -> str -> list A) :
  matches_d U d ->
  ('(t, r3) ← re_d U (d ++ chr "-" :: rest);
   '(_, r4) ← re_char (chr "-") r3; f t r4)
  = f d rest.
Proof.
  intros [c Hc|c1 c2 Hc1 Hc2|c Hc|c Hc|c Hc].
  - apply range_0_1 in Hc as [->| ->]; unfold re_d, re_seq; eval_chr; cbn;
      by rewrite ?app_nil_r.
  - pose proof (decimal_not_hyphen _ Hc2) as Hne. destruct Hc2 as [v Hv].
    revert Hne. eval_chr. intros Hne.
    apply range_1_2 in Hc1 as [->| ->];
      unfold re_d, re_seq, re_digit; eval_chr; cbn -[decimal_char]; rewrite Hv;
      cbn -[decimal_char]; rewrite Hne; cbn; by rewrite ?app_nil_r.
  - apply range_1_9 in Hc; destruct_or!; subst c; unfold re_d, re_seq;
      eval_chr; cbn; by rewrite ?app_nil_r.
  - apply range_1_9 in Hc; destruct_or!; subst c; unfold re_d, re_seq;
      eval_chr; cbn; by rewrite ?app_nil_r.
  - apply range_1_9 in Hc; destruct_or!; subst c; unfold re_d, re_seq;
      eval_chr; cbn; by rewrite ?app_nil_r.
Qed.
End StrptimeParts.

Section StrptimeSpec.
Context (U : unicode_db).

Lemma re_match_complete B d Y :
  matches_B U B -> matches_d U d -> matches_Y U Y ->
  re_match U (B ++ chr "-" :: d ++ chr "-" :: Y) = [(B, d, Y, [])].
Proof.
  intros HB Hd HY. unfold re_match.
  rewrite (re_B_complete U B _ HB), bind_singleton.
  change (re_char (chr "-") (chr "-" :: d ++ chr "-" :: Y))
    with [([chr "-"], d ++ chr "-" :: Y)].
  rewrite bind_singleton.
  rewrite (re_d_then_hyphen U d Y
             (fun t r4 => '(Y0, r5) ← re_Y U r4; [(B, t, Y0, r5)]) Hd).
  by rewrite (re_Y_complete U Y HY).
Qed.

Lemma re_match_sound s B d Y r :
  (B, d, Y, r) ∈ re_match U s ->
  s = B ++ chr "-" :: d ++ chr "-" :: Y ++ r
  /\ matches_B U B /\ matches_d U d /\ matches_Y U Y.
Proof.
  unfold re_match.
  intros ([B' r1] & H & [-> HB]%re_B_sound)%list_elem_of_bind.
  apply list_elem_of_bind in H as ([h1 r2] & H & [-> ->]%re_char_sound).
  apply list_elem_of_bind in H as ([d' r3] & H & [-> Hd]%re_d_sound).
  apply list_elem_of_bind in H as ([h2 r4] & H & [-> ->]%re_char_sound).
  apply list_elem_of_bind in H as ([Y' r5] & H & [-> HY]%re_Y_sound).
  apply list_elem_of_singleton in H as [= <- <- <- <-].
  by split_and!.
Qed.

(** [strptime] returns a date exactly for the texts of that date. *)
Lemma strptime_B_d_Y_spec s dt :
  strptime_B_d_Y U s = Ok dt <-> date_text U s dt.
Proof.
  split.
  - unfold strptime_B_d_Y.
    destruct (re_match U s) as [|[[[B d] Y] r] found] eqn:Hfound; [done|].
    destruct r; [|done].
    destruct (py_int U Y) as [year|] eqn:Hyear; [|done].
    destruct (list_index (str_lower U B) f_month) as [month|] eqn:Hmonth;
      [|done].
    destruct (py_int U d) as [day|] eqn:Hday; [|done].
    destruct (valid_date year (N.of_nat month) day) eqn:Hvalid; [|done].
    intros [= <-].
    destruct (re_match_sound s B d Y []) as (Hs & HB & Hd & HY).
    { rewrite Hfound. by left. }
    exists B, d, Y. cbn [dt_year dt_month dt_day].
    rewrite app_nil_r in Hs. rewrite Nat2N.id. by split_and!.
  - intros (B & d & Y & -> & HB & Hd & HY & Hmonth & Hday & Hyear & Hvalid).
    unfold strptime_B_d_Y. rewrite (re_match_complete B d Y HB Hd HY).
    rewrite Hyear, Hmonth, Hday, N2Nat.id, Hvalid. by destruct dt.
Qed.
End StrptimeSpec.

(** ** Decimal digits *)

Ltac lia_div := zify; Z.to_euclidean_division_equations; lia.

Lemma ascii_digit_mod (n : N) : ascii_digit (48 + n mod 10)%N = true.
Proof.
  unfold ascii_digit. apply andb_true_intro.
  split; apply N.leb_le; lia_div.
Qed.

Lemma digits_value_from acc s :
  fold_left (fun acc c => (10 * acc + (c - 48))%N) s acc
  = (acc * 10 ^ N.of_nat (length s) + digits_value s)%N.
Proof.
  unfold digits_value. revert acc.
  induction s as [|c s IH]; intros acc; cbn [fold_left length].
  - rewrite N.pow_0_r. lia.
  - rewrite IH, (IH (10 * 0 + (c - 48))%N).
    rewrite Nat2N.inj_succ, N.pow_succ_r'. lia.
Qed.

Lemma digits_value_app a b :
  digits_value (a ++ b)
  = (digits_value a * 10 ^ N.of_nat (length b) + digits_value b)%N.
Proof.
  unfold digits_value at 1. rewrite fold_left_app.
  fold (digits_value a). apply digits_value_from.
Qed.

Lemma digits_value_single (d : N) : digits_value [(48 + d)%N] = d.
Proof. unfold digits_value. cbn [fold_left]. lia. Qed.

Lemma low_digits_length n q : length (low_digits n q) = n.
Proof.
  revert q. induction n as [|n IH]; intros q; [done|].
  cbn [low_digits]. rewrite length_app, IH. cbn. lia.
Qed.

Lemma low_digits_digits n q : is_digits (low_digits n q).
Proof.
  revert q. induction n as [|n IH]; intros q; [constructor|].
  cbn [low_digits]. apply Forall_app. split; [apply IH|].
  repeat constructor. apply ascii_digit_mod.
Qed.

Lemma low_digits_value n q :
  digits_value (low_digits n q) = (q mod 10 ^ N.of_nat n)%N.
Proof.
  revert q. induction n as [|n IH]; intros q.
  - cbn. by rewrite N.mod_1_r.
  - cbn [low_digits]. rewrite digits_value_app, IH.
    rewrite Nat2N.inj_succ, N.pow_succ_r', N.Div0.mod_mul_r.
    cbn [length]. rewrite digits_value_single.
    change (10 ^ N.of_nat 1)%N with 10%N.
    generalize ((q / 10) mod 10 ^ N.of_nat n)%N (q mod 10)%N. lia.
Qed.

Lemma dec_aux_digits fuel n acc :
  is_digits acc -> is_digits (dec_aux fuel n acc).
Proof.
  revert n acc. induction fuel as [|fuel IH]; intros n acc Hacc; [done|].
  cbn [dec_aux].
  assert (is_digits ((48 + n mod 10)%N :: acc)) as Hacc'.
  { constructor; [apply ascii_digit_mod|done]. }
  destruct (n / 10 =? 0)%N; [done|]. by apply IH.
Qed.

Lemma dec_aux_nonempty fuel n acc : dec_aux (S fuel) n acc <> [].
Proof.
  revert n acc. induction fuel as [|fuel IH]; intros n acc; cbn [dec_aux].
  - by destruct (n / 10 =? 0)%N.
  - destruct (n / 10 =? 0)%N; [done|]. apply IH.
Qed.

Lemma dec_aux_value fuel n acc :
  (n < 2 ^ N.of_nat fuel)%N ->
  digits_value (dec_aux fuel n acc)
  = (n * 10 ^ N.of_nat (length acc) + digits_value acc)%N.
Proof.
  revert n acc. induction fuel as [|fuel IH]; intros n acc Hn.
  - cbn in Hn. cbn [dec_aux]. assert (n = 0%N) as -> by lia. lia.
  - cbn [dec_aux].
    assert (digits_value ((48 + n mod 10)%N :: acc)
            = (n mod 10 * 10 ^ N.of_nat (length acc) + digits_value acc)%N)
      as Hcons.
    { change ((48 + n mod 10)%N :: acc) with ([(48 + n mod 10)%N] ++ acc).
      by rewrite digits_value_app, digits_value_single. }
    destruct (N.eqb_spec (n / 10) 0) as [Hz|Hnz].
    + rewrite Hcons. f_equal. f_equal. lia_div.
    + rewrite IH, Hcons.
      * cbn [length]. rewrite Nat2N.inj_succ, N.pow_succ_r'.
        assert (n = 10 * (n / 10) + n mod 10)%N as Hdm by lia_div.
        rewrite Hdm at 3. lia.
      * rewrite Nat2N.inj_succ, N.pow_succ_r' in Hn. lia_div.
Qed.

Lemma str_of_N_digits n : is_digits (str_of_N n).
Proof. apply dec_aux_digits. constructor. Qed.

Lemma str_of_N_nonempty n : str_of_N n <> [].
Proof. apply dec_aux_nonempty. Qed.

Lemma str_of_N_value n : digits_value (str_of_N n) = n.
Proof.
  unfold str_of_N. rewrite dec_aux_value.
  - cbn. lia.
  - rewrite Nat2N.inj_succ, N2Nat.id.
    destruct n as [|p]; [done|]. apply N.log2_spec. lia.
Qed.

Lemma fixed_point_two sign q :
  fixed_two_decimals (sign_text sign ++ fixed_point 2 q) sign q.
Proof.
  unfold fixed_point.
  pose proof (low_digits_length 2 q) as Hlen.
  pose proof (low_digits_digits 2 q) as Hdig.
  pose proof (low_digits_value 2 q) as Hval.
  destruct (low_digits 2 q) as [|d1 [|d2 [|]]]; try done.
  exists (str_of_N (q / 10 ^ N.of_nat 2)), d1, d2. split_and!.
  - done.
  - apply str_of_N_nonempty.
  - apply Forall_app. split; [apply str_of_N_digits|done].
  - rewrite digits_value_app, str_of_N_value, Hval. cbn [length].
    change (10 ^ N.of_nat 2)%N with 100%N. lia_div.
Qed.

(** ** Rounding to hundredths *)

Lemma div_half_even_nearest a b :
  (0 <= a -> 0 < b ->
   0 <= div_half_even a b
   /\ Z.abs (2 * (div_half_even a b * b - a)) <= b)%Z.
Proof.
  intros Ha Hb. unfold div_half_even.
  pose proof (Z.div_mod a b ltac:(lia)) as Hdm.
  pose proof (Z.mod_pos_bound a b Hb) as Hr.
  assert (0 <= a / b)%Z by (apply Z.div_pos; lia).
  destruct (Z.compare_spec (2 * (a mod b)) b) as [Heq|Hlt|Hgt];
    [destruct (Z.even (a / b))| |]; split; nia.
Qed.

Lemma scaled_round_nearest m e : nearest_hundredths m e (scaled_round 2 m e).
Proof.
  unfold nearest_hundredths, scaled_round.
  change (10 ^ Z.of_nat 2)%Z with 100%Z.
  destruct (Z.leb_spec 0 e) as [He|He].
  - rewrite Z2N.id; [done|]. assert (0 < 2 ^ e)%Z by (apply Z.pow_pos_nonneg; lia).
    nia.
  - assert (0 < 2 ^ (- e))%Z as Hb by (apply Z.pow_pos_nonneg; lia).
    destruct (div_half_even_nearest (Z.pos m * 100) (2 ^ (- e))) as [H0 Hn];
      [lia|done|].
    by rewrite Z2N.id.
Qed.

(** ** The value normalizer: amount *)

(** C7, as the code has it: the amount is parsed by [float] and printed
    by [format(x, '.2f')].  When [float] gives a finite number, the text
    is an optional minus sign, digits, a point and exactly two digits,
    and it reads the number of hundredths nearest to the parsed number;
    when [float] gives an infinity or a NaN, which it does for texts
    such as "inf" and "nan", the text is "inf", "-inf" or "nan"; when
    [float] rejects the text, [ValueError] is raised.  So "1234.5" gives
    "1234.50", "1234" gives "1234.00" and "abc" raises. *)
Theorem normalize_value_amount_spec (E : env) (value : str) :
  (forall x,
     py_float (ucd E) value = Ok x ->
     normalize_value E (py "amount") value = Ok (VStr (format_f 2 x))
     /\ match x with
        | S754_zero s => fixed_two_decimals (format_f 2 x) s 0
        | S754_finite s m e =>
            fixed_two_decimals (format_f 2 x) s (scaled_round 2 m e)
            /\ nearest_hundredths m e (scaled_round 2 m e)
        | S754_infinity s => format_f 2 x = sign_text s ++ py "inf"
        | S754_nan => format_f 2 x = py "nan"
        end)
  /\ (forall e,
        py_float (ucd E) value = Raise e ->
        normalize_value E (py "amount") value = Raise ValueError)
  /\ normalize_value E (py "amount") (py "1234.5") = Ok (VStr (py "1234.50"))
  /\ normalize_value E (py "amount") (py "1234") = Ok (VStr (py "1234.00"))
  /\ normalize_value E (py "amount") (py "abc") = Raise ValueError.
Proof.
  split_and!.
  - intros x Hx. rewrite normalize_value_amount, Hx. split; [done|].
    destruct x as [s|s| |s m e]; cbn [format_f].
    + apply fixed_point_two.
    + done.
    + done.
    + split; [apply fixed_point_two|apply scaled_round_nearest].
  - intros e He. rewrite normalize_value_amount, He. cbn [obind].
    by rewrite (py_float_raises_ValueError _ _ _ He).
  - by vm_compute.
  - by vm_compute.
  - by vm_compute.
Qed.

Lemma normalize_value_amount_spec_witness :
  normalize_value test_env (py "amount") (py "0.125") = Ok (VStr (py "0.12"))
  /\ fixed_two_decimals (py "0.12") false 12
  /\ nearest_hundredths 4503599627370496 (-55) 12.
Proof.
  pose proof (proj1 (normalize_value_amount_spec test_env (py "0.125"))
                (S754_finite false 4503599627370496 (-55)) eq_refl)
    as (H1 & H2 & H3).
  split_and!; [exact H1|exact H2|exact H3].
Defined.

(** The claim of C7 fails on the amounts "nan" and "inf", which [float]
    accepts: they are neither rejected nor printed with two decimals. *)
Lemma amount_nan_and_inf :
  normalize_value test_env (py "amount") (py "nan") = Ok (VStr (py "nan"))
  /\ normalize_value test_env (py "amount") (py "inf") = Ok (VStr (py "inf"))
  /\ normalize_value test_env (py "amount") (py "1e999") = Ok (VStr (py "inf")).
Proof. split_and!; by vm_compute. Qed.

(** ** Dates written in ASCII *)

Section AsciiDates.
Context (U : unicode_db).

Lemma ascii_digit_is_ascii c : ascii_digit c = true -> is_ascii c = true.
Proof.
  unfold ascii_digit, is_ascii. intros [H1%N.leb_le H2%N.leb_le]%andb_true_iff.
  apply N.ltb_lt. lia.
Qed.

Lemma decimal_char_ascii_digit c :
  ascii_digit c = true -> decimal_char U c = Some (c - 48)%N.
Proof.
  intros Hc. unfold decimal_char. by rewrite (ascii_digit_is_ascii c Hc), Hc.
Qed.

Lemma isspace_char_ascii_digit c :
  ascii_digit c = true -> isspace_char U c = false.
Proof.
  intros Hc. unfold isspace_char. rewrite (ascii_digit_is_ascii c Hc).
  unfold ascii_digit in Hc. apply andb_true_iff in Hc as [H1%N.leb_le H2%N.leb_le].
  unfold ascii_space.
  repeat match goal with
         | |- context [(?a <=? ?b)%N] => destruct (N.leb_spec a b)
         | |- context [(?a =? ?b)%N] => destruct (N.eqb_spec a b)
         end; cbn; try done; lia.
Qed.

Lemma int_digits_ascii acc s :
  is_digits s ->
  int_digits U acc s
  = Some (acc * 10 ^ N.of_nat (length s) + digits_value s)%N.
Proof.
  intros Hs. revert acc. induction Hs as [|c s Hc _ IH]; intros acc.
  - cbn. f_equal. lia.
  - cbn [int_digits]. rewrite (decimal_char_ascii_digit c Hc), IH.
    f_equal. cbn [length]. rewrite Nat2N.inj_succ, N.pow_succ_r'.
    change (digits_value (c :: s)) with (digits_value ([c] ++ s)).
    rewrite digits_value_app.
    change (digits_value [c]) with (10 * 0 + (c - 48))%N. lia.
Qed.

Lemma py_int_ascii s :
  is_digits s -> s <> [] -> py_int U s = Some (digits_value s).
Proof.
  intros Hs Hne. destruct s as [|c s]; [done|].
  cbn [py_int]. apply list.Forall_cons in Hs as Hcs. destruct Hcs as [Hc _].
  by rewrite (isspace_char_ascii_digit c Hc), (int_digits_ascii _ _ Hs).
Qed.

Lemma spells_ci_eq B :
  Forall (fun c => is_ascii c = true) B ->
  Forall2 (fun p c => ci_eq U p c = true) (ascii_tolower <$> B) B.
Proof.
  induction 1 as [|c B Hc _ IH]; [constructor|].
  cbn [fmap list_fmap]. constructor; [|done].
  unfold ci_eq. rewrite Hc. apply N.eqb_refl.
Qed.

Lemma spells_lower B :
  Forall (fun c => is_ascii c = true) B ->
  str_lower U B = ascii_tolower <$> B.
Proof.
  unfold str_lower. induction 1 as [|c B Hc _ IH]; [done|].
  rewrite bind_cons, IH, Hc. done.
Qed.

(** The day of the month in digits, with or without a leading zero. *)
Lemma day_digits d t :
  (1 <= d <= 31)%N -> t = str_of_N d \/ t = low_digits 2 d ->
  matches_d U t /\ py_int U t = Some d.
Proof.
  intros Hd Ht.
  assert (matches_d U t) as Hm.
  { assert (d ∈ (N.of_nat <$> seq 1 31)) as Hin.
    { apply list_elem_of_fmap. exists (N.to_nat d).
      split; [lia|]. apply elem_of_seq. lia. }
    cbn in Hin. rewrite !elem_of_cons, elem_of_nil in Hin.
    destruct_or!; try done; subst d; subst t; vm_compute;
      first [ apply d_single; unfold in_range; vm_compute (chr _); lia
            | apply d_padded; unfold in_range; vm_compute (chr _); lia
            | apply d_thirty; unfold in_range; vm_compute (chr _); lia
            | apply d_tens; [unfold in_range; vm_compute (chr _); lia
                            |by eexists] ]. }
  split; [done|].
  destruct Ht as [-> | ->].
  - rewrite py_int_ascii, str_of_N_value;
      auto using str_of_N_digits, str_of_N_nonempty.
  - rewrite py_int_ascii, low_digits_value; [| apply low_digits_digits |].
    + f_equal. change (10 ^ N.of_nat 2)%N with 100%N. apply N.mod_small. lia.
    + intros H%(f_equal length). by rewrite low_digits_length in H.
Qed.

(** The year in four digits. *)
Lemma year_digits y :
  (y <= 9999)%N ->
  matches_Y U (low_digits 4 y) /\ py_int U (low_digits 4 y) = Some y.
Proof.
  intros Hy. split; [split|].
  - apply low_digits_length.
  - eapply list.Forall_impl; [apply low_digits_digits|].
    intros c Hc. cbv beta in Hc. by rewrite (decimal_char_ascii_digit c Hc).
  - rewrite py_int_ascii, low_digits_value; [| apply low_digits_digits |].
    + f_equal. change (10 ^ N.of_nat 4)%N with 10000%N. apply N.mod_small. lia.
    + intros H%(f_equal length). by rewrite low_digits_length in H.
Qed.

(** A month name in any case, the day and the four digits of the year,
    joined by hyphens, are the text of that date. *)
Lemma date_text_ascii (m : nat) name B t d y :
  (1 <= m <= 12)%nat -> f_month !! m = Some name -> spells B name ->
  (1 <= d <= 31)%N -> t = str_of_N d \/ t = low_digits 2 d ->
  (y <= 9999)%N ->
  valid_date y (N.of_nat m) d = true ->
  date_text U (B ++ chr "-" :: t ++ chr "-" :: low_digits 4 y)
    {| dt_year := y; dt_month := N.of_nat m; dt_day := d |}.
Proof.
  intros Hm Hname [HB Hlow] Hd Ht Hy Hvalid.
  destruct (day_digits d t Hd Ht) as [Hmd Hday].
  destruct (year_digits y Hy) as [HmY Hyear].
  exists B, t, (low_digits 4 y). cbn [dt_year dt_month dt_day].
  rewrite Nat2N.id, (spells_lower B HB), Hlow.
  split_and!; try done.
  - exists name. split; [|rewrite <- Hlow; by apply spells_ci_eq].
    do 13 (destruct m as [|m]; [first [lia | injection Hname as <-;
      apply (bool_decide_unpack _); by vm_compute]|]). lia.
  - do 13 (destruct m as [|m]; [first [lia | injection Hname as <-;
      reflexivity]|]). lia.
Qed.
End AsciiDates.

(** ** The value normalizer: dates *)

(** C6, as the code has it: a date cell is parsed by
    [strptime(value, '%B-%d-%Y')].  It gives a date exactly for the
    texts of that date: a month name matched letter by letter whatever
    the case, a hyphen, the day as 1 to 9 (alone, after a zero or after
    a blank) or 10 to 31, a hyphen and four digits of year, naming a day
    of the calendar; every other text raises [ValueError].  In
    particular a month name in any mix of cases, the day with or without
    its leading zero and the year in four digits parse to that date:
    "January-05-2015" gives 2015-01-05, and "13-05-2015" raises. *)
Theorem normalize_value_date_spec (E : env) (key value : str) :
  key ∈ date_keys ->
  (forall dt,
     normalize_value E key value = Ok (VDate dt) <-> date_text (ucd E) value dt)
  /\ ((forall dt, ~ date_text (ucd E) value dt) ->
      normalize_value E key value = Raise ValueError)
  /\ (forall (m : nat) name B t d y,
        (1 <= m <= 12)%nat -> f_month !! m = Some name -> spells B name ->
        (1 <= d <= 31)%N -> t = str_of_N d \/ t = low_digits 2 d ->
        (y <= 9999)%N ->
        valid_date y (N.of_nat m) d = true ->
        normalize_value E key (B ++ chr "-" :: t ++ chr "-" :: low_digits 4 y)
        = Ok (VDate {| dt_year := y; dt_month := N.of_nat m; dt_day := d |}))
  /\ normalize_value E key (py "January-05-2015")
     = Ok (VDate {| dt_year := 2015; dt_month := 1; dt_day := 5 |})
  /\ normalize_value E key (py "13-05-2015") = Raise ValueError.
Proof.
  intros Hkey.
  assert (forall v dt,
            normalize_value E key v = Ok (VDate dt)
            <-> date_text (ucd E) v dt) as Hiff.
  { intros v dt. rewrite (normalize_value_date E key v Hkey).
    rewrite <- strptime_B_d_Y_spec.
    destruct (strptime_B_d_Y (ucd E) v); cbn [obind]; split; congruence. }
  split_and!.
  - apply Hiff.
  - intros Hno. rewrite (normalize_value_date E key value Hkey).
    destruct (strptime_B_d_Y (ucd E) value) as [dt|e] eqn:Hp; cbn [obind].
    + by apply strptime_B_d_Y_spec, Hno in Hp.
    + by rewrite (strptime_raises_ValueError _ _ _ Hp).
  - intros. apply Hiff. by eapply date_text_ascii.
  - rewrite (normalize_value_date E key _ Hkey). by vm_compute.
  - rewrite (normalize_value_date E key _ Hkey). by vm_compute.
Qed.

Lemma normalize_value_date_spec_witness :
  normalize_value test_env (py "end_date") (py "FEBRUARY-29-2016")
  = Ok (VDate {| dt_year := 2016; dt_month := 2; dt_day := 29 |}).
Proof.
  refine (proj1 (proj2 (proj2
    (normalize_value_date_spec test_env (py "end_date") [] _)))
    2%nat (py "february") (py "FEBRUARY") (py "29") 29%N 2016%N _ _ _ _ _ _ _).
  - apply (bool_decide_unpack _). by vm_compute.
  - lia.
  - reflexivity.
  - split; [by repeat constructor|reflexivity].
  - lia.
  - by left.
  - lia.
  - reflexivity.
Defined.

(** The claim of C6 fails on "january-5-2015": the month is in lower
    case and the day has one digit, yet the text parses. *)
Lemma date_lower_case_one_digit_day :
  normalize_value test_env (py "record_date") (py "january-5-2015")
  = Ok (VDate {| dt_year := 2015; dt_month := 1; dt_day := 5 |}).
Proof. by vm_compute. Qed.

(** ** Worked examples *)

(** [float]: 0.1 is 0x1.999999999999ap-4, and the halfway case
    9007199254740993 rounds to the even neighbour 2^53. *)
Example py_float_tenth :
  py_float ucd_none (py "0.1") = Ok (S754_finite false 7205759403792794 (-56)).
Proof. by vm_compute. Qed.

Example py_float_halfway :
  py_float ucd_none (py "9007199254740993")
  = Ok (S754_finite false 4503599627370496 1).
Proof. by vm_compute. Qed.

Example py_float_forms :
  py_float ucd_none (py " 1_000.5e-1 ") = py_float ucd_none (py "100.05")
  /\ py_float ucd_none (py "-Infinity") = Ok (S754_infinity true)
  /\ py_float ucd_none (py "1e") = Raise ValueError
  /\ py_float ucd_none (py "1__0") = Raise ValueError
  /\ py_float ucd_none (py ".") = Raise ValueError
  /\ py_float ucd_none (py "") = Raise ValueError.
Proof. split_and!; by vm_compute. Qed.

(** [format(x, '.2f')] rounds the binary value: 2.675 is stored just
    below and 0.125 is a tie that goes to the even digit. *)
Example amount_examples :
  normalize_value test_env (py "amount") (py "2.675") = Ok (VStr (py "2.67"))
  /\ normalize_value test_env (py "amount") (py "0.125") = Ok (VStr (py "0.12"))
  /\ normalize_value test_env (py "amount") (py "0.375") = Ok (VStr (py "0.38"))
  /\ normalize_value test_env (py "amount") (py "-0.001") = Ok (VStr (py "-0.00"))
  /\ normalize_value test_env (py "amount") (py "1e22")
     = Ok (VStr (py "10000000000000000000000.00")).
Proof. split_and!; by vm_compute. Qed.

Example fiscal_year_examples :
  normalize_value test_env (py "fiscal_year") (py "FY 2015") = Ok (VStr (py "2015"))
  /\ normalize_value test_env (py "fiscal_year") (py "2015") = Ok (VStr (py "2015"))
  /\ normalize_value test_env (py "fiscal_year") (py "  ") = Raise IndexError.
Proof. split_and!; reflexivity. Qed.

Example date_examples :
  strptime_B_d_Y ucd_none (py "February-29-2016")
  = Ok {| dt_year := 2016; dt_month := 2; dt_day := 29 |}
  /\ strptime_B_d_Y ucd_none (py "February-29-2015") = Raise ValueError
  /\ strptime_B_d_Y ucd_none (py "May-31-0000") = Raise ValueError
  /\ strptime_B_d_Y ucd_none (py "May-3-2016 ") = Raise ValueError
  /\ strptime_B_d_Y ucd_none (py "May-35-2016") = Raise ValueError
  /\ strptime_B_d_Y ucd_none (py "Jan-05-2015") = Raise ValueError.
Proof. split_and!; by vm_compute. Qed.

(** Every payee cell, even an empty one, ends the row. *)
Example payee_examples :
  normalize_value test_env (py "payee") (py "") = Raise TypeError
  /\ process_row test_env (PyStr (py "ACME, INC.")) [py "payee"; py "old_payee"]
       empty_world
     = (Raise TypeError, empty_world).
Proof. split; reflexivity. Qed.

(** The log entry and the printed line of an unknown header label. *)
Example unknown_header_example :
  normalize_column_names test_env [py "PURPOSE"; py "Amount"] empty_world
  = (Raise (SystemExit
       (py "2017-06-01 12:00:00.250000 - Error message: 'Amount' " ++ [10%N])),
     {| stdout := [py "No matching entry for Amount"];
        log_file :=
          [py "2017-06-01 12:00:00.250000 - Error message: 'Amount' " ++ [10%N]];
        db := [] |}).
Proof. reflexivity. Qed.

(** A store error is logged with the store's message. *)
Example store_error_example :
  process_row failing_store_env (PyStr (py "Travel,,Official"))
    [py "purpose"; py "expense_category"; py "program_type"] empty_world
  = (Raise (SystemExit
       (py "2017-06-01 12:00:00.250000 - Error message: relation does not exist "
        ++ [10%N])),
     {| stdout := [];
        log_file :=
          [py "2017-06-01 12:00:00.250000 - Error message: relation does not exist "
           ++ [10%N]];
        db := [] |}).
Proof. reflexivity. Qed.

(* ================================================================== *)
(** * Further properties of the code *)
(* ================================================================== *)

(** ** The batch driver *)

Lemma normalize_column_names_from_db E acc header_row w :
  db (normalize_column_names_from E acc header_row w).2 = db w.
Proof.
  revert acc. induction header_row as [|h header_row IH]; intros acc; [done|].
  cbn [normalize_column_names_from].
  destruct (dict_get expenditure_column_conversions h); [apply IH|done].
Qed.

Lemma process_rows_db E file reader column_names w :
  db (process_rows E file reader column_names w).2 = db w.
Proof.
  revert column_names w.
  induction reader as [|item reader IH]; intros column_names w; [done|].
  destruct item as [row|e_repr line_num|e0]; [|done..].
  destruct column_names as [|c column_names]; [|done].
  cbn [process_rows]. unfold io_bind.
  pose proof (normalize_column_names_from_db E [] row w) as Hdb.
  unfold normalize_column_names.
  destruct (normalize_column_names_from E [] row w) as [[names|e] w1];
    cbn [snd] in *; [|done].
  by rewrite IH.
Qed.

Lemma process_files_db E file_names w :
  db (process_files E file_names w).2 = db w.
Proof.
  revert w. induction file_names as [|file file_names IH]; intros w; [done|].
  cbn [process_files]. unfold io_bind, open_reader.
  destruct (files E (DATA_PATH ++ file)) as [reader|]; [|done].
  cbn [io_ret]. pose proof (process_rows_db E file reader [] w) as Hdb.
  destruct (process_rows E file reader [] w) as [[[]|e] w1]; cbn [snd] in *;
    [|done].
  by rewrite IH.
Qed.

(** X1: whatever the files hold, a run of [process_csvs] commits nothing
    to the store.  The header row is the only row it can get through:
    every row after it is handed to [process_row] as a list and ends the
    run there. *)
Theorem process_csvs_never_inserts (E : env) (file_names : list str)
    (w : world) :
  db (process_csvs E file_names w).2 = db w
  /\ forall file row reader column_names,
       column_names <> [] ->
       process_rows E file (ReaderRow row :: reader) column_names w
       = (Raise AttributeError, w).
Proof.
  split.
  - unfold process_csvs, io_bind.
    pose proof (process_files_db E file_names w) as Hdb.
    destruct (process_files E file_names w) as [[[]|e] w1]; cbn [snd] in *;
      done.
  - intros file row reader [|c column_names] Hne; done.
Qed.

Lemma process_csvs_never_inserts_witness :
  process_rows test_env (py "test.csv")
    [ReaderRow [py "Travel"; py ""; py "Official"]]
    [py "purpose"; py "expense_category"; py "program_type"] empty_world
  = (Raise AttributeError, empty_world).
Proof.
  apply (proj2 (process_csvs_never_inserts test_env [] empty_world)). done.
Defined.

(** The header row, when it is accepted, changes nothing. *)
Lemma normalize_column_names_from_Ok E acc header_row w names w' :
  normalize_column_names_from E acc header_row w = (Ok names, w') ->
  w' = w
  /\ exists ns,
       names = acc ++ ns
       /\ Forall2 (fun h c => dict_get expenditure_column_conversions h = Some c)
            header_row ns.
Proof.
  revert acc. induction header_row as [|h header_row IH]; intros acc.
  - cbn. intros [= <- <-]. split; [done|]. exists []. by rewrite app_nil_r.
  - cbn [normalize_column_names_from].
    destruct (dict_get expenditure_column_conversions h) as [c|] eqn:Hh; [|done].
    intros (-> & ns & -> & Hns)%IH. split; [done|].
    exists (c :: ns). rewrite <- app_assoc. split; [done|]. by constructor.
Qed.

Lemma normalize_column_names_Ok E header_row w names w' :
  normalize_column_names E header_row w = (Ok names, w') ->
  w' = w
  /\ Forall2 (fun h c => dict_get expenditure_column_conversions h = Some c)
       header_row names.
Proof.
  intros (-> & ns & -> & Hns)%normalize_column_names_from_Ok. done.
Qed.

Lemma Forall2_mapped header_row names :
  Forall2 (fun h c => dict_get expenditure_column_conversions h = Some c)
    header_row names ->
  Forall mapped header_row.
Proof.
  induction 1 as [|h c header_row names Hh _ IH]; constructor; [|done].
  unfold mapped. by rewrite Hh.
Qed.

Lemma process_rows_header_only E file reader w :
  header_only reader -> process_rows E file reader [] w = (Ok tt, w).
Proof.
  intros (k & tail & -> & Htail).
  induction k as [|k IH]; cbn [replicate app].
  - destruct Htail as [->|(header & -> & Hne & Hmapped)]; [done|].
    destruct (normalize_column_names_from_mapped E [] header w Hmapped)
      as (names & Hnames & Hrun).
    cbn [process_rows]. unfold io_bind, normalize_column_names. by rewrite Hrun.
  - exact IH.
Qed.

Lemma process_rows_Ok E file reader w w' :
  process_rows E file reader [] w = (Ok tt, w') -> header_only reader.
Proof.
  revert w. induction reader as [|item reader IH]; intros w.
  - intros _. exists 0, []. split; [done|]. by left.
  - destruct item as [row|e_repr line_num|e0]; [|done..].
    cbn [process_rows]. unfold io_bind.
    destruct (normalize_column_names E row w) as [[names|e] w1] eqn:Hrow;
      [|done].
    apply normalize_column_names_Ok in Hrow as [-> Hnames].
    destruct row as [|h row].
    + apply Forall2_nil_inv_l in Hnames as ->.
      intros (k & tail & -> & Htail)%IH. by exists (S k), tail.
    + apply Forall2_cons_inv_l in Hnames as (c & names' & Hc & Hnames' & ->).
      destruct reader as [|[row'|e_repr line_num|e0] reader]; [|done..].
      intros _. exists 0, [ReaderRow (h :: row)]. split; [done|]. right.
      exists (h :: row). split_and!; [done..|].
      apply (Forall2_mapped _ (c :: names')). by constructor.
Qed.

Lemma process_files_Ok E file_names w w' :
  process_files E file_names w = (Ok tt, w') ->
  w' = w
  /\ Forall (fun file =>
       exists reader,
         files E (DATA_PATH ++ file) = Some reader /\ header_only reader)
       file_names.
Proof.
  revert w. induction file_names as [|file file_names IH]; intros w.
  - by intros [= <-].
  - cbn [process_files]. unfold io_bind, open_reader.
    destruct (files E (DATA_PATH ++ file)) as [reader|] eqn:Hfile; [|done].
    cbn [io_ret].
    destruct (process_rows E file reader [] w) as [[[]|e] w1] eqn:Hrows; [|done].
    pose proof (process_rows_Ok _ _ _ _ _ Hrows) as Hreader.
    rewrite (process_rows_header_only _ _ _ _ Hreader) in Hrows.
    injection Hrows as <-.
    intros [-> Hall]%IH. split; [done|]. constructor; [|done]. by exists reader.
Qed.

Lemma process_files_header_only E file_names w :
  Forall (fun file =>
    exists reader,
      files E (DATA_PATH ++ file) = Some reader /\ header_only reader)
    file_names ->
  process_files E file_names w = (Ok tt, w).
Proof.
  induction 1 as [|file file_names (reader & Hfile & Hreader) _ IH]; [done|].
  cbn [process_files]. unfold io_bind, open_reader. rewrite Hfile. cbn [io_ret].
  by rewrite (process_rows_header_only _ _ _ _ Hreader).
Qed.

(** X2: a run of [process_csvs] ends without an exception exactly when
    every file can be opened and holds no data row (blank lines, then at
    most one header row of mapped labels); it then prints
    "<number of files> files processed successfully!" and leaves the log
    and the store as they were. *)
Theorem process_csvs_succeeds_iff (E : env) (file_names : list str)
    (w : world) :
  ((process_csvs E file_names w).1 = Ok tt
   <-> Forall (fun file =>
         exists reader,
           files E (DATA_PATH ++ file) = Some reader /\ header_only reader)
         file_names)
  /\ ((process_csvs E file_names w).1 = Ok tt ->
      process_csvs E file_names w
      = (Ok tt, printed w (summary_line (length file_names)))).
Proof.
  assert ((process_csvs E file_names w).1 = Ok tt ->
          Forall (fun file =>
            exists reader,
              files E (DATA_PATH ++ file) = Some reader /\ header_only reader)
            file_names) as Hok.
  { unfold process_csvs, io_bind.
    destruct (process_files E file_names w) as [[[]|e] w1] eqn:Hfiles; [|done].
    intros _. by apply process_files_Ok in Hfiles as [_ ?]. }
  assert (Forall (fun file =>
            exists reader,
              files E (DATA_PATH ++ file) = Some reader /\ header_only reader)
            file_names ->
          process_csvs E file_names w
          = (Ok tt, printed w (summary_line (length file_names)))) as Hrun.
  { intros Hall. unfold process_csvs, io_bind.
    by rewrite (process_files_header_only _ _ _ Hall). }
  split; [split|]; [done| |by auto].
  intros Hall. by rewrite (Hrun Hall).
Qed.

Lemma process_csvs_succeeds_iff_witness :
  process_csvs headers_env [py "a.csv"; py "b.csv"] empty_world
  = (Ok tt, printed empty_world (summary_line 2)).
Proof.
  apply (proj2 (process_csvs_succeeds_iff headers_env
                  [py "a.csv"; py "b.csv"] empty_world)).
  apply (proj1 (process_csvs_succeeds_iff headers_env
                  [py "a.csv"; py "b.csv"] empty_world)).
  assert (header_only [ReaderRow []; ReaderRow [py "DATE"; py "AMOUNT"]]) as H.
  { exists 1, [ReaderRow [py "DATE"; py "AMOUNT"]]. split; [done|]. right.
    exists [py "DATE"; py "AMOUNT"]. split_and!; [done..|].
    apply list.Forall_cons. split; [by eexists|].
    apply list.Forall_cons. split; [by eexists|]. apply Forall_nil_2. }
  apply list.Forall_cons. split; [by eexists|].
  apply list.Forall_cons. split; [by eexists|]. apply Forall_nil_2.
Defined.

(** ** The header normalizer's result *)

Lemma dict_get_elem_of {V} (d : dict V) k v :
  dict_get d k = Some v -> (k, v) ∈ d.
Proof.
  induction d as [|[k0 v0] d IH]; cbn [dict_get]; [done|].
  destruct (decide (k = k0)) as [->|Hne].
  - intros [= ->]. by left.
  - intros H. right. by apply IH.
Qed.

Lemma dict_values_NoDup_inj {V} (d : dict V) k1 k2 v :
  NoDup (dict_values d) -> (k1, v) ∈ d -> (k2, v) ∈ d -> k1 = k2.
Proof.
  unfold dict_values. induction d as [|[k0 v0] d IH]; cbn [fmap list_fmap snd].
  - by intros _ ?%elem_of_nil.
  - intros [Hnotin Hnd]%list.NoDup_cons.
    intros H1%elem_of_cons H2%elem_of_cons.
    destruct H1 as [H1|H1], H2 as [H2|H2].
    + congruence.
    + injection H1 as -> ->. destruct Hnotin.
      apply list_elem_of_fmap. by exists (k2, v0).
    + injection H2 as -> ->. destruct Hnotin.
      apply list_elem_of_fmap. by exists (k1, v0).
    + by apply IH.
Qed.

Lemma expenditure_column_names_NoDup :
  NoDup (dict_values expenditure_column_conversions).
Proof. apply (bool_decide_unpack _). by vm_compute. Qed.

(** X3: the column names the header normalizer returns are values of
    the conversion table, one per label and at the label's position,
    and the world is left as it was; since the table gives different
    names to different labels, a header row without a repeated label
    gives column names without a repeated name. *)
Theorem normalize_column_names_result (E : env) (w w' : world)
    (header_row names : list str) :
  normalize_column_names E header_row w = (Ok names, w') ->
  w' = w
  /\ length names = length header_row
  /\ Forall (fun c => c ∈ dict_values expenditure_column_conversions) names
  /\ (NoDup header_row -> NoDup names).
Proof.
  intros [-> H]%normalize_column_names_Ok. split_and!.
  - done.
  - symmetry. by eapply Forall2_length.
  - induction H as [|h c header_row names Hh _ IH]; constructor; [|done].
    apply list_elem_of_fmap. exists (h, c). split; [done|].
    by apply dict_get_elem_of.
  - induction H as [|h c header_row names Hh H IH]; [constructor|].
    intros [Hnotin Hnd]%list.NoDup_cons. apply list.NoDup_cons.
    split; [|by apply IH].
    intros Hin. apply Hnotin.
    apply list_elem_of_lookup in Hin as [i Hi].
    destruct (Forall2_lookup_r _ _ _ _ _ H Hi) as (h' & Hh' & Hc).
    assert (h = h') as ->; [|by eapply list_elem_of_lookup_2].
    eapply dict_values_NoDup_inj;
      eauto using expenditure_column_names_NoDup, dict_get_elem_of.
Qed.

Lemma normalize_column_names_result_witness :
  NoDup [py "record_date"; py "amount"].
Proof.
  apply (normalize_column_names_result test_env empty_world empty_world
           [py "DATE"; py "AMOUNT"] [py "record_date"; py "amount"] eq_refl).
  apply (bool_decide_unpack _). by vm_compute.
Defined.

(** ** Runs of characters between white space *)

Lemma split_runs_cons sp c s :
  sp c = false ->
  exists w rest,
    split_runs sp (c :: s) = (c :: w) :: split_runs sp rest
    /\ s = w ++ rest
    /\ Forall (fun x => sp x = false) w
    /\ length rest <= length s
    /\ match rest with d :: _ => sp d = true | [] => True end.
Proof.
  revert c. induction s as [|d s IH]; intros c Hc.
  - exists [], []. cbn. rewrite Hc. by split_and!.
  - destruct (sp d) eqn:Hd.
    + exists [], (d :: s). cbn [split_runs]. rewrite Hc, Hd. by split_and!.
    + destruct (IH d Hd) as (w & rest & Hsplit & -> & Hw & Hlen & Hrest).
      exists (d :: w), rest.
      change (split_runs sp (c :: d :: w ++ rest))
        with (if sp c then split_runs sp (d :: w ++ rest)
              else if sp d then [c] :: split_runs sp (d :: w ++ rest)
                   else match split_runs sp (d :: w ++ rest) with
                        | w0 :: ws => (c :: w0) :: ws
                        | [] => [[c]]
                        end).
      rewrite Hc, Hd, Hsplit. split_and!; [done|done|by constructor| |done].
      cbn [length] in *. lia.
Qed.

Lemma split_runs_space sp c s :
  sp c = true -> split_runs sp (c :: s) = split_runs sp s.
Proof. intros Hc. cbn [split_runs]. by rewrite Hc. Qed.

(** White space only gives no run, and only white space does. *)
Lemma split_runs_nil sp s :
  split_runs sp s = [] <-> Forall (fun x => sp x = true) s.
Proof.
  induction s as [|c s IH]; [done|].
  destruct (sp c) eqn:Hc.
  - rewrite (split_runs_space _ _ _ Hc), IH. split.
    + by constructor.
    + by intros [_ ?]%list.Forall_cons.
  - destruct (split_runs_cons sp c s Hc) as (w & rest & -> & _). split; [done|].
    intros [? _]%list.Forall_cons. congruence.
Qed.

(** A run without white space is its own and only run. *)
Lemma split_runs_run sp t :
  t <> [] -> Forall (fun x => sp x = false) t -> split_runs sp t = [t].
Proof.
  destruct t as [|c t]; [done|]. intros _ [Hc Ht]%list.Forall_cons.
  revert c Hc. induction Ht as [|d t Hd _ IH]; intros c Hc.
  - cbn. by rewrite Hc.
  - specialize (IH d Hd).
    change (split_runs sp (c :: d :: t))
      with (if sp c then split_runs sp (d :: t)
            else if sp d then [c] :: split_runs sp (d :: t)
                 else match split_runs sp (d :: t) with
                      | w0 :: ws => (c :: w0) :: ws
                      | [] => [[c]]
                      end).
    by rewrite Hc, Hd, IH.
Qed.

(** The same run, followed by white space. *)
Lemma split_runs_run_space sp t ws :
  t <> [] -> Forall (fun x => sp x = false) t ->
  Forall (fun x => sp x = true) ws ->
  split_runs sp (t ++ ws) = [t].
Proof.
  intros Ht Hns Hws. destruct t as [|c t]; [done|]. clear Ht.
  apply list.Forall_cons in Hns as [Hc Hns].
  revert c Hc. induction Hns as [|d t Hd _ IH]; intros c Hc.
  - cbn [app]. destruct ws as [|d ws].
    + cbn. by rewrite Hc.
    + apply list.Forall_cons in Hws as [Hd Hws].
      cbn [split_runs]. rewrite Hc, Hd.
      by rewrite (proj2 (split_runs_nil sp ws) Hws).
  - specialize (IH d Hd).
    change (split_runs sp ((c :: d :: t) ++ ws))
      with (if sp c then split_runs sp ((d :: t) ++ ws)
            else if sp d then [c] :: split_runs sp ((d :: t) ++ ws)
                 else match split_runs sp ((d :: t) ++ ws) with
                      | w0 :: ws0 => (c :: w0) :: ws0
                      | [] => [[c]]
                      end).
    by rewrite Hc, Hd, IH.
Qed.

(** The runs of a text that ends with white space are not touched by
    what follows it. *)
Lemma split_runs_app sp pre s :
  match list.last pre with Some c => sp c = true | None => True end ->
  split_runs sp (pre ++ s) = split_runs sp pre ++ split_runs sp s.
Proof.
  induction pre as [|c pre IH]; [done|].
  destruct pre as [|d pre].
  - cbn [list.last]. intros Hc. cbn [app].
    by rewrite !(split_runs_space _ _ _ Hc).
  - change (list.last (c :: d :: pre)) with (list.last (d :: pre)).
    intros Hlast. specialize (IH Hlast).
    change (split_runs sp ((c :: d :: pre) ++ s))
      with (if sp c then split_runs sp ((d :: pre) ++ s)
            else if sp d then [c] :: split_runs sp ((d :: pre) ++ s)
                 else match split_runs sp ((d :: pre) ++ s) with
                      | w0 :: ws0 => (c :: w0) :: ws0
                      | [] => [[c]]
                      end).
    change (split_runs sp (c :: d :: pre))
      with (if sp c then split_runs sp (d :: pre)
            else if sp d then [c] :: split_runs sp (d :: pre)
                 else match split_runs sp (d :: pre) with
                      | w0 :: ws0 => (c :: w0) :: ws0
                      | [] => [[c]]
                      end).
    rewrite IH. destruct (sp c); [done|].
    destruct (sp d) eqn:Hd; [done|].
    by destruct (split_runs_cons sp d pre Hd) as (w & rest & -> & _).
Qed.

(** The last run of [split_runs] is the last run of the text, and the
    only one. *)
Lemma split_runs_last sp s t :
  list.last (split_runs sp s) = Some t <-> last_run sp s t.
Proof.
  split.
  - remember (length s) as n eqn:Hn.
    assert (length s <= n) as Hle by lia. clear Hn.
    revert s Hle. induction n as [|n IH]; intros s Hle.
    { destruct s; [done|cbn in Hle; lia]. }
    destruct s as [|c s]; [done|]. cbn [length] in Hle.
    destruct (sp c) eqn:Hc.
    + rewrite (split_runs_space _ _ _ Hc).
      intros (pre & ws & -> & Ht & Hns & Hws & Hpre)%IH; [|lia].
      exists (c :: pre), ws. split_and!; [done..|].
      destruct pre; [done|exact Hpre].
    + destruct (split_runs_cons sp c s Hc)
        as (w & rest & -> & -> & Hw & Hlen & Hrest).
      rewrite last_cons.
      destruct (list.last (split_runs sp rest)) as [t'|] eqn:Hlast.
      * intros [= <-].
        apply IH in Hlast as (pre & ws & -> & Ht & Hns & Hws & Hpre); [|lia].
        exists (c :: w ++ pre), ws. split_and!; [|done..|].
        { cbn [app]. by rewrite <- app_assoc. }
        destruct pre as [|p pre].
        { destruct t' as [|x t']; [done|]. cbn [app] in Hrest.
          apply list.Forall_cons in Hns as [Hx _]. congruence. }
        change (c :: w ++ p :: pre) with ((c :: w) ++ p :: pre).
        rewrite last_app.
        destruct (list.last (p :: pre)) eqn:Hl; [done|].
        by apply last_None in Hl.
      * intros [= <-]. apply last_None in Hlast.
        apply split_runs_nil in Hlast.
        exists [], rest. split_and!; [done|done|by constructor|done|done].
  - intros (pre & ws & -> & Ht & Hns & Hws & Hpre).
    rewrite (split_runs_app _ _ _ Hpre), (split_runs_run_space _ _ _ Ht Hns Hws).
    apply last_snoc.
Qed.

(** ** The value normalizer: fiscal year *)

Lemma normalize_value_fiscal_year E value :
  normalize_value E (py "fiscal_year") value
  = if str_isdigit (ucd E) value then Ok (VStr value)
    else let! t := list_last_item (str_split (ucd E) value) in Ok (VStr t).
Proof.
  unfold normalize_value.
  change (bool_decide (py "fiscal_year" = py "start_date")) with false.
  change (bool_decide (py "fiscal_year" = py "end_date")) with false.
  change (bool_decide (py "fiscal_year" = py "record_date")) with false.
  change (bool_decide (py "fiscal_year" = py "fiscal_year")) with true.
  cbn [orb andb]. by destruct (str_isdigit (ucd E) value).
Qed.

Lemma str_isdigit_nonempty U s : str_isdigit U s = true -> s <> [].
Proof. by destruct s. Qed.

Lemma normalize_value_fiscal_year_Ok E value nv :
  normalize_value E (py "fiscal_year") value = Ok nv ->
  exists t pre ws,
    nv = VStr t /\ t <> [] /\ value = pre ++ t ++ ws
    /\ Forall (fun c => isspace_char (ucd E) c = true) ws
    /\ (str_isdigit (ucd E) value = false ->
        Forall (fun c => isspace_char (ucd E) c = false) t).
Proof.
  rewrite normalize_value_fiscal_year.
  destruct (str_isdigit (ucd E) value) eqn:Hd.
  - intros [= <-]. exists value, [], [].
    rewrite app_nil_r. split_and!; try done. by eapply str_isdigit_nonempty.
  - unfold list_last_item, str_split.
    destruct (list.last (split_runs (isspace_char (ucd E)) value)) as [t|]
      eqn:Hlast; [|done].
    intros [= <-].
    apply split_runs_last in Hlast as (pre & ws & -> & Ht & Hns & Hws & _).
    by exists t, pre, ws.
Qed.

(** X4: the fiscal-year rule.  A value of digits is kept.  Any other
    value gives its last run of characters between white space, all of
    it: the run is not empty, holds no white space, is followed in the
    value by white space only and starts the value or follows a white
    space ("FY 2015 " gives "2015"); no other text is such a run.  What
    the rule gives is kept when put through the rule again.  The rule
    fails, with [IndexError], exactly on the values that are not all
    digits and hold nothing but white space, the empty cell among
    them. *)
Theorem normalize_value_fiscal_year_spec (E : env) (value : str) :
  (forall nv,
     normalize_value E (py "fiscal_year") value = Ok nv <->
     (str_isdigit (ucd E) value = true /\ nv = VStr value)
     \/ (str_isdigit (ucd E) value = false
         /\ exists t, nv = VStr t /\ last_run (isspace_char (ucd E)) value t))
  /\ (forall t t',
        last_run (isspace_char (ucd E)) value t ->
        last_run (isspace_char (ucd E)) value t' -> t = t')
  /\ (forall t,
        normalize_value E (py "fiscal_year") value = Ok (VStr t) ->
        normalize_value E (py "fiscal_year") t = Ok (VStr t))
  /\ (forall e,
        normalize_value E (py "fiscal_year") value = Raise e <->
        e = IndexError
        /\ str_isdigit (ucd E) value = false
        /\ Forall (fun c => isspace_char (ucd E) c = true) value).
Proof.
  split_and!.
  - intros nv. rewrite normalize_value_fiscal_year.
    destruct (str_isdigit (ucd E) value) eqn:Hd.
    + split; [intros [= <-]; by left|].
      by intros [[_ ->]|[? _]].
    + unfold list_last_item, str_split. split.
      * destruct (list.last (split_runs (isspace_char (ucd E)) value)) as [t|]
          eqn:Hlast; [|done].
        intros [= <-]. right. split; [done|]. exists t. split; [done|].
        by apply split_runs_last.
      * intros [[? _]|(_ & t & -> & Hrun)]; [done|].
        apply split_runs_last in Hrun. by rewrite Hrun.
  - intros t t' H H'. apply split_runs_last in H, H'. congruence.
  - intros t Hnv.
    destruct (normalize_value_fiscal_year_Ok E value _ Hnv)
      as (t0 & pre & ws & [= <-] & Ht & Hv & Hws & Hns).
    rewrite normalize_value_fiscal_year.
    destruct (str_isdigit (ucd E) value) eqn:Hd.
    * rewrite normalize_value_fiscal_year, Hd in Hnv.
      injection Hnv as <-. by rewrite Hd.
    * destruct (str_isdigit (ucd E) t); [done|].
      unfold str_split. by rewrite (split_runs_run _ t Ht (Hns eq_refl)).
  - intros e. rewrite normalize_value_fiscal_year.
    destruct (str_isdigit (ucd E) value) eqn:Hd.
    + split; [done|]. by intros (_ & ? & _).
    + unfold list_last_item, str_split.
      destruct (list.last (split_runs (isspace_char (ucd E)) value)) as [t|]
        eqn:Hlast; cbn [obind].
      * split; [done|]. intros (_ & _ & Hall).
        apply split_runs_nil in Hall. by rewrite Hall in Hlast.
      * apply last_None, split_runs_nil in Hlast. split.
        -- intros [= <-]. done.
        -- by intros (-> & _).
Qed.

Lemma normalize_value_fiscal_year_spec_witness :
  normalize_value test_env (py "fiscal_year") (py "FY 2015 ")
  = Ok (VStr (py "2015"))
  /\ normalize_value test_env (py "fiscal_year") (py "2015")
     = Ok (VStr (py "2015")).
Proof.
  assert (last_run (isspace_char ucd_none) (py "FY 2015 ") (py "2015")) as Hrun.
  { exists (py "FY "), (py " "). split_and!.
    - reflexivity.
    - done.
    - apply (bool_decide_unpack _). by vm_compute.
    - apply (bool_decide_unpack _). by vm_compute.
    - reflexivity. }
  assert (normalize_value test_env (py "fiscal_year") (py "FY 2015 ")
          = Ok (VStr (py "2015"))) as Hnv.
  { apply (proj1 (normalize_value_fiscal_year_spec test_env (py "FY 2015 "))).
    right. split; [reflexivity|]. by exists (py "2015"). }
  split; [exact Hnv|].
  exact (proj1 (proj2 (proj2
           (normalize_value_fiscal_year_spec test_env (py "FY 2015 "))))
           (py "2015") Hnv).
Defined.

(** ** Fields that are never left out *)

Lemma format_f_two_nonempty x : format_f 2 x <> [].
Proof.
  destruct x as [s|s| |s m e]; cbn [format_f].
  - unfold fixed_point. destruct s; [done|]. cbn [sign_text app].
    intros [? ?]%app_eq_nil. done.
  - by destruct s.
  - done.
  - unfold fixed_point. destruct s; [done|]. cbn [sign_text app].
    intros [? ?]%app_eq_nil. done.
Qed.

Lemma store_fields_has_key d fields k :
  (exists v, (k, v) ∈ fields /\ truthy v = true) \/ is_Some (dict_get d k) ->
  is_Some (dict_get (store_fields d fields) k).
Proof.
  revert d. induction fields as [|[k0 v0] fields IH]; intros d.
  - intros [(v & Hin & _)|H]; [by apply elem_of_nil in Hin|done].
  - rewrite store_fields_cons. intros H. apply IH.
    destruct H as [(v & [[= <- <-]|Hin]%elem_of_cons & Hv)|H].
    + right. rewrite Hv, dict_get_set, decide_True by done. by eexists.
    + left. by exists v.
    + right. destruct (truthy v0); [|done]. rewrite dict_get_set.
      by destruct (decide (k = k0)).
Qed.

(** X5: a date, an amount or a fiscal year is never left out of a
    record.  The rule of these columns never gives an empty value, so
    every such column of a row that could be built has its key in the
    record; an empty cell in one of them raises instead ([ValueError]
    for a date or an amount, [IndexError] for a fiscal year). *)
Theorem typed_fields_never_omitted (E : env) (key : str) :
  key ∈ date_keys ++ [py "amount"; py "fiscal_year"] ->
  (forall value nv,
     normalize_value E key value = Ok nv -> truthy nv = true)
  /\ normalize_value E key []
     = Raise (if bool_decide (key = py "fiscal_year")
              then IndexError else ValueError)
  /\ (forall row column_names nvs d,
        Forall3 (fun v k nv => normalize_value E k v = Ok nv)
          (str_split_on (chr ",") row) column_names nvs ->
        key ∈ column_names ->
        build_record E (PyStr row) column_names = Ok d ->
        is_Some (dict_get d key)).
Proof.
  intros Hkey.
  assert (forall value nv,
            normalize_value E key value = Ok nv -> truthy nv = true) as Htruthy.
  { intros value nv.
    apply elem_of_app in Hkey as [Hkey|Hkey].
    - rewrite (normalize_value_date E key value Hkey).
      destruct (strptime_B_d_Y (ucd E) value); [|done]. by intros [= <-].
    - apply elem_of_cons in Hkey as [->|Hkey].
      + rewrite normalize_value_amount.
        destruct (py_float (ucd E) value) as [x|]; [|done].
        intros [= <-]. pose proof (format_f_two_nonempty x).
        cbn. by destruct (format_f 2 x).
      + apply list_elem_of_singleton in Hkey as ->.
        intros (t & pre & ws & -> & Ht & _)%normalize_value_fiscal_year_Ok.
        cbn. by destruct t. }
  split_and!.
  - done.
  - unfold date_keys in Hkey. cbn [app] in Hkey.
    rewrite !elem_of_cons, elem_of_nil in Hkey.
    destruct_or!; subst key; try done; reflexivity.
  - intros row column_names nvs d Hall Hin.
    rewrite build_record_str, (build_from_ok _ _ _ _ _ Hall). intros [= <-].
    apply store_fields_has_key. left.
    apply list_elem_of_lookup in Hin as [i Hi].
    destruct (Forall3_lookup_m _ _ _ _ _ _ Hall Hi) as (v & nv & Hv & Hnv & Hn).
    exists nv. split; [|by eapply Htruthy].
    apply list_elem_of_lookup. exists i.
    by rewrite lookup_zip_with, Hi; cbn; rewrite Hnv.
Qed.

Lemma typed_fields_never_omitted_witness :
  is_Some (dict_get [(py "fiscal_year", VStr (py "2015"))] (py "fiscal_year")).
Proof.
  refine (proj2 (proj2 (typed_fields_never_omitted test_env (py "fiscal_year") _))
            (py ",FY 2015") [py "purpose"; py "fiscal_year"]
            [VStr []; VStr (py "2015")] _ _ _ eq_refl).
  - apply (bool_decide_unpack _). by vm_compute.
  - repeat constructor.
  - apply (bool_decide_unpack _). by vm_compute.
Defined.

(** ** Columns without a rule *)

Lemma normalize_value_no_rule E key value :
  key ∉ rule_keys -> normalize_value E key value = Ok (VStr value).
Proof.
  unfold rule_keys, date_keys, payee_keys. cbn [app].
  rewrite !not_elem_of_cons. intros Hkey. destruct_and!.
  unfold normalize_value.
  by rewrite !bool_decide_eq_false_2 by done.
Qed.

Lemma str_split_on_length sep s :
  length (str_split_on sep s) = S (count_char sep s).
Proof.
  induction s as [|c s IH]; [done|].
  cbn [str_split_on count_char].
  destruct (c =? sep)%N; cbn [length]; [by rewrite IH|].
  destruct (str_split_on sep s); cbn [length] in *; [done|lia].
Qed.

Lemma build_from_no_rule E cells cols d :
  Forall (fun k => k ∉ rule_keys) cols ->
  build_from E cells cols d
  = if decide (length cells <= length cols)
    then Ok (store_fields d (zip cols (VStr <$> cells)))
    else Raise IndexError.
Proof.
  intros Hcols. revert cells d.
  induction Hcols as [|k cols Hk _ IH]; intros cells d.
  - destruct cells; [done|]. cbn [build_from length].
    by rewrite decide_False by lia.
  - destruct cells as [|v cells]; [done|].
    cbn [build_from]. rewrite (normalize_value_no_rule E k v Hk). cbn [obind].
    rewrite IH. cbn [length fmap list_fmap zip zip_with].
    rewrite store_fields_cons.
    destruct (decide (length cells <= length cols)).
    + by rewrite decide_True by lia.
    + by rewrite decide_False by lia.
Qed.

Lemma dict_set_new {V} (d : dict V) k v :
  dict_get d k = None -> dict_set d k v = d ++ [(k, v)].
Proof.
  induction d as [|[k0 v0] d IH]; cbn [dict_get dict_set app]; [done|].
  destruct (decide (k = k0)); [done|]. intros H. by rewrite IH.
Qed.

Lemma dict_get_snoc {V} (d : dict V) k v k' :
  dict_get (d ++ [(k, v)]) k'
  = match dict_get d k' with
    | Some v' => Some v'
    | None => if decide (k' = k) then Some v else None
    end.
Proof.
  induction d as [|[k0 v0] d IH]; cbn [dict_get app]; [done|].
  by destruct (decide (k' = k0)).
Qed.

(** With names that do not repeat, the record is the list of the fields
    that are not empty, in the order of the row. *)
Lemma store_fields_kept d fields :
  NoDup fields.*1 ->
  Forall (fun k => dict_get d k = None) fields.*1 ->
  store_fields d fields = d ++ kept_fields fields.
Proof.
  unfold kept_fields. revert d.
  induction fields as [|[k v] fields IH]; intros d.
  - intros _ _. by rewrite app_nil_r.
  - cbn [fmap list_fmap fst].
    intros [Hnotin Hnd]%list.NoDup_cons [Hk Hd]%list.Forall_cons.
    rewrite store_fields_cons, filter_cons. cbn [snd].
    destruct (truthy v) eqn:Hv.
    + rewrite decide_True by done. rewrite (dict_set_new d k v Hk).
      rewrite IH; [rewrite <- (app_assoc d); reflexivity|done|].
      apply list.Forall_forall. intros k' Hk'. rewrite dict_get_snoc.
      rewrite list.Forall_forall in Hd. rewrite (Hd k' Hk').
      rewrite decide_False; [done|]. by intros ->.
    + rewrite decide_False by done. by apply IH.
Qed.

Lemma zip_fst_NoDup {A B} (l : list A) (k : list B) :
  NoDup l -> NoDup (zip l k).*1.
Proof.
  intros Hl. revert k. induction Hl as [|x l Hx Hl IH]; intros k.
  - apply NoDup_nil_2.
  - destruct k as [|y k]; [apply NoDup_nil_2|].
    cbn [zip zip_with fmap list_fmap fst]. apply NoDup_cons_2; [|apply IH].
    intros (p & -> & Hp)%list_elem_of_fmap. destruct p as [x' y'].
    by apply elem_of_zip_l in Hp.
Qed.

(** X6: a row under column names that have no rule.  Its cells are what
    lies between its commas, so it has one cell more than it has
    commas.  When the column names are enough for the cells and none
    is repeated, the record handed to the loader holds the cells that
    are not empty under their column names, unchanged and in the order
    of the row; when the cells outnumber the column names,
    [process_row] raises [IndexError] and nothing is inserted. *)
Theorem process_row_plain_columns (E : env) (w : world) (row : str)
    (column_names : list str) :
  Forall (fun k => k ∉ rule_keys) column_names ->
  NoDup column_names ->
  length (str_split_on (chr ",") row) = S (count_char (chr ",") row)
  /\ (count_char (chr ",") row < length column_names ->
      process_row E (PyStr row) column_names w
      = insert_into_db E
          (kept_fields (zip column_names (VStr <$> str_split_on (chr ",") row)))
          w)
  /\ (length column_names <= count_char (chr ",") row ->
      process_row E (PyStr row) column_names w = (Raise IndexError, w)).
Proof.
  intros Hcols Hnd.
  pose proof (str_split_on_length (chr ",") row) as Hlen.
  split_and!; [done| |].
  - intros Hlt. apply process_row_built.
    rewrite build_record_str, (build_from_no_rule _ _ _ _ Hcols).
    rewrite decide_True by lia. f_equal.
    rewrite store_fields_kept; [done| |].
    + by apply zip_fst_NoDup.
    + by apply list.Forall_forall.
  - intros Hle. apply process_row_not_built.
    rewrite build_record_str, (build_from_no_rule _ _ _ _ Hcols).
    by rewrite decide_False by lia.
Qed.

Lemma process_row_plain_columns_witness :
  process_row test_env (PyStr (py "a,,c")) [py "x"; py "y"; py "z"] empty_world
  = insert_into_db test_env
      [(py "x", VStr (py "a")); (py "z", VStr (py "c"))] empty_world
  /\ process_row test_env (PyStr (py "a,,c")) [py "x"; py "y"] empty_world
     = (Raise IndexError, empty_world).
Proof.
  assert (Hr3 : Forall (fun k => k ∉ rule_keys) [py "x"; py "y"; py "z"]).
  { apply (bool_decide_unpack _). by vm_compute. }
  assert (Hn3 : NoDup [py "x"; py "y"; py "z"]).
  { apply (bool_decide_unpack _). by vm_compute. }
  assert (Hr2 : Forall (fun k => k ∉ rule_keys) [py "x"; py "y"]).
  { apply (bool_decide_unpack _). by vm_compute. }
  assert (Hn2 : NoDup [py "x"; py "y"]).
  { apply (bool_decide_unpack _). by vm_compute. }
  split.
  - destruct (process_row_plain_columns test_env empty_world (py "a,,c")
                _ Hr3 Hn3) as (_ & H & _).
    rewrite H; [reflexivity|vm_compute; lia].
  - destruct (process_row_plain_columns test_env empty_world (py "a,,c")
                _ Hr2 Hn2) as (_ & _ & H).
    apply H. vm_compute. lia.
Defined.

(** ** Every outcome of the loader *)

Lemma mapM_make_Identifier_cases values :
  (exists texts, values = VStr <$> texts)
  \/ mapM make_Identifier values = Raise TypeError.
Proof.
  induction values as [|[s|dt] values IH]; [left; by exists []| |by right].
  destruct IH as [[texts ->]|IH]; [left; by exists (s :: texts)|right].
  cbn [mapM make_Identifier obind]. by rewrite IH.
Qed.

Lemma mapM_make_Identifier_has_date values dt :
  VDate dt ∈ values -> mapM make_Identifier values = Raise TypeError.
Proof.
  intros Hin.
  destruct (mapM_make_Identifier_cases values) as [[texts ->]|H]; [|done].
  apply list_elem_of_fmap in Hin as (t & [=] & _).
Qed.

(** X7: every outcome of [insert_into_db].  It never ends without a
    result: it returns the row of the store or raises.  It returns a row
    only when every value of the record is text, the store accepted the
    connection and the statement, and then exactly one statement, sent
    without parameters, is committed and nothing is printed or logged.
    When it raises, nothing is committed or printed: a refused
    connection raises [OperationalError], a record that holds a date
    raises [TypeError] from [sql.Identifier], both outside the [try] and
    so without a log entry, and a statement the store refuses is logged
    and ends the run with [SystemExit]. *)
Theorem insert_into_db_outcomes (E : env) (w : world)
    (key_val_dict : dict nvalue) :
  match insert_into_db E key_val_dict w with
  | (Ok None, _) => False
  | (Ok (Some expense_id), w') =>
      exists texts,
        let stmt := {| stmt_query := insert_query (dict_keys key_val_dict) texts;
                       stmt_vars := None |} in
        dict_values key_val_dict = VStr <$> texts
        /\ db_connect E (db w) = None
        /\ db_execute E (db w) stmt = DbRow expense_id
        /\ w' = committed w stmt
  | (Raise e, w') =>
      db w' = db w /\ stdout w' = stdout w
      /\ ((exists msg,
             db_connect E (db w) = Some msg
             /\ e = OperationalError msg /\ w' = w)
          \/ (exists dt,
                db_connect E (db w) = None
                /\ VDate dt ∈ dict_values key_val_dict
                /\ e = TypeError /\ w' = w)
          \/ (exists texts msg,
                db_connect E (db w) = None
                /\ dict_values key_val_dict = VStr <$> texts
                /\ db_execute E (db w)
                     {| stmt_query := insert_query (dict_keys key_val_dict) texts;
                        stmt_vars := None |} = DbError msg
                /\ e = SystemExit (error_output E (ErrPsycopg2 msg))
                /\ w' = logged w (error_output E (ErrPsycopg2 msg))))
  end.
Proof.
  destruct (db_connect E (db w)) as [msg|] eqn:Hconnect.
  { rewrite (insert_into_db_connect_fails _ _ _ _ Hconnect).
    split_and!; [done..|]. left. by exists msg. }
  destruct (mapM_make_Identifier_cases (dict_values key_val_dict))
    as [[texts Hvalues]|Hdate].
  - unfold insert_into_db, io_bind, psycopg2_connect, io_lift.
    rewrite Hconnect, Hvalues, !mapM_make_Identifier. cbn [obind].
    change (SQL_format _ _)
      with (Ok (insert_query (dict_keys key_val_dict) texts)).
    unfold cur_execute_fetchone_commit.
    destruct (db_execute E (db w) _) as [msg|expense_id] eqn:Hexec.
    + cbn. split_and!; [done..|]. right. right. by exists texts, msg.
    + cbn. by exists texts.
  - assert (exists dt, VDate dt ∈ dict_values key_val_dict) as [dt Hin].
    { clear -Hdate. induction (dict_values key_val_dict) as [|[s|dt] l IH].
      - done.
      - cbn [mapM make_Identifier obind] in Hdate.
        destruct (mapM make_Identifier l) eqn:Hl; [done|].
        destruct IH as [dt Hin]; [by injection Hdate as ->|].
        exists dt. by right.
      - exists dt. by left. }
    unfold insert_into_db, io_bind, psycopg2_connect, io_lift.
    rewrite Hconnect, mapM_make_Identifier, Hdate. cbn.
    split_and!; [done..|]. right. left. by exists dt.
Qed.

(** ** Rows with a date *)

Lemma dict_get_values {V} (d : dict V) k v :
  dict_get d k = Some v -> v ∈ dict_values d.
Proof.
  unfold dict_values.
  induction d as [|[k0 v0] d IH]; cbn [dict_get fmap list_fmap snd]; [done|].
  destruct (decide (k = k0)); [intros [= ->]; by left|].
  intros H. right. by apply IH.
Qed.

Lemma build_from_date_key E cells column_names d0 d key :
  key ∈ date_keys ->
  build_from E cells column_names d0 = Ok d ->
  key ∈ take (length cells) column_names
  \/ (exists dt, dict_get d0 key = Some (VDate dt)) ->
  exists dt, dict_get d key = Some (VDate dt).
Proof.
  intros Hkey. revert column_names d0.
  induction cells as [|v cells IH]; intros column_names d0.
  - cbn [build_from length take]. intros [= <-] [Hin|H]; [|done].
    by apply elem_of_nil in Hin.
  - destruct column_names as [|k column_names]; [done|].
    cbn [build_from length take].
    destruct (normalize_value E k v) as [nv|] eqn:Hnv; [|done]. cbn [obind].
    intros Hd Hin. apply (IH _ _ Hd).
    destruct (decide (key = k)) as [<-|Hne].
    + right. rewrite (normalize_value_date _ _ _ Hkey) in Hnv.
      destruct (strptime_B_d_Y (ucd E) v) as [dt|]; [|done].
      injection Hnv as <-. exists dt.
      cbn [truthy]. by rewrite dict_get_set, decide_True.
    + destruct Hin as [[?|Hin]%elem_of_cons|[dt Hdt]]; [done|by left|].
      right. exists dt. destruct (truthy nv); [|done].
      by rewrite dict_get_set, decide_False.
Qed.

(** X8: a row with a date is never stored.  When the record of a row
    can be built and one of the date columns is among the columns of
    its cells, the record holds a [datetime] under that column and the
    loader raises: [OperationalError] when the connection is refused,
    [TypeError] from [sql.Identifier] otherwise.  No statement is
    sent and nothing is logged. *)
Theorem date_row_never_stored (E : env) (w : world) (row : str)
    (column_names : list str) (d : dict nvalue) (key : str) :
  build_record E (PyStr row) column_names = Ok d ->
  key ∈ date_keys ->
  key ∈ take (S (count_char (chr ",") row)) column_names ->
  (exists dt, dict_get d key = Some (VDate dt))
  /\ process_row E (PyStr row) column_names w
     = (Raise (match db_connect E (db w) with
               | Some msg => OperationalError msg
               | None => TypeError
               end), w).
Proof.
  intros Hd Hkey Hin.
  assert (exists dt, dict_get d key = Some (VDate dt)) as [dt Hdt].
  { rewrite build_record_str in Hd.
    apply (build_from_date_key _ _ _ _ _ _ Hkey Hd). left.
    by rewrite str_split_on_length. }
  split; [by exists dt|].
  rewrite (process_row_built _ _ _ _ _ Hd).
  destruct (db_connect E (db w)) as [msg|] eqn:Hconnect.
  - by apply insert_into_db_connect_fails.
  - unfold insert_into_db, io_bind, psycopg2_connect, io_lift.
    rewrite Hconnect, mapM_make_Identifier.
    by rewrite (mapM_make_Identifier_has_date _ dt (dict_get_values _ _ _ Hdt)).
Qed.

Lemma date_row_never_stored_witness :
  process_row test_env (PyStr (py "Travel,January-05-2015"))
    [py "purpose"; py "record_date"] empty_world
  = (Raise TypeError, empty_world).
Proof.
  refine (proj2 (date_row_never_stored test_env empty_world
    (py "Travel,January-05-2015") [py "purpose"; py "record_date"]
    [(py "purpose", VStr (py "Travel"));
     (py "record_date", VDate {| dt_year := 2015; dt_month := 1; dt_day := 5 |})]
    (py "record_date") _ _ _)).
  - by vm_compute.
  - apply (bool_decide_unpack _). by vm_compute.
  - apply (bool_decide_unpack _). by vm_compute.
Defined.

(** ** Rows with a payee *)

Lemma normalize_value_raises E key value e :
  normalize_value E key value = Raise e -> e ∈ cell_errors.
Proof.
  unfold normalize_value, cell_errors, list_last_item.
  rewrite normalize_entry_TypeError. intros H.
  repeat case_match; simplify_eq/=;
    try (destruct (strptime_B_d_Y (ucd E) value) eqn:Hs; simplify_eq/=;
         apply strptime_raises_ValueError in Hs as ->);
    try (destruct (py_float (ucd E) value) eqn:Hf; simplify_eq/=;
         apply py_float_raises_ValueError in Hf as ->);
    repeat constructor.
Qed.

Lemma normalize_value_payee E key value :
  key ∈ payee_keys -> normalize_value E key value = Raise TypeError.
Proof.
  unfold payee_keys. rewrite !elem_of_cons, elem_of_nil.
  intros [->|[->|[->|[]]]]; reflexivity.
Qed.

Lemma build_from_payee E cells column_names d i key :
  column_names !! i = Some key -> key ∈ payee_keys -> i < length cells ->
  exists e,
    build_from E cells column_names d = Raise e
    /\ e ∈ cell_errors
    /\ (Forall (fun k => k ∉ rule_keys) (take i column_names) -> e = TypeError).
Proof.
  intros Hi Hkey. revert column_names d i Hi.
  induction cells as [|v cells IH]; intros column_names d i Hi Hlt;
    [cbn in Hlt; lia|].
  destruct column_names as [|k column_names]; [done|].
  cbn [build_from]. destruct i as [|i]; cbn in Hi.
  - injection Hi as ->. rewrite (normalize_value_payee _ _ _ Hkey).
    exists TypeError. split_and!; [done|repeat constructor|done].
  - destruct (normalize_value E k v) as [nv|e] eqn:Hnv; cbn [obind].
    + destruct (IH column_names (if truthy nv then dict_set d k nv else d) i Hi)
        as (e & He & Hin & Hplain); [cbn in Hlt; lia|].
      exists e. split_and!; [done..|].
      cbn [take]. intros [_ H]%list.Forall_cons. by apply Hplain.
    + exists e. split_and!; [done|by eapply normalize_value_raises|].
      cbn [take]. intros [Hk _]%list.Forall_cons.
      by rewrite (normalize_value_no_rule _ _ _ Hk) in Hnv.
Qed.

(** X9: a row with a payee is never stored.  The cells of the columns
    payee, original_recipient and old_payee go through
    [normalize_entry], which raises [TypeError] at its first statement
    whatever the cell.  So when one of these columns is among the
    columns of a row's cells, the record is never built and the loader
    is not called: [process_row] raises [ValueError], [IndexError] or
    [TypeError] and leaves the world as it was, and it is [TypeError]
    when the columns before that one have no rule. *)
Theorem payee_row_never_stored (E : env) (w : world) (row : str)
    (column_names : list str) (i : nat) (key : str) :
  column_names !! i = Some key ->
  key ∈ payee_keys ->
  i <= count_char (chr ",") row ->
  exists e,
    process_row E (PyStr row) column_names w = (Raise e, w)
    /\ e ∈ cell_errors
    /\ (Forall (fun k => k ∉ rule_keys) (take i column_names) -> e = TypeError).
Proof.
  intros Hi Hkey Hle.
  destruct (build_from_payee E (str_split_on (chr ",") row) column_names []
              i key Hi Hkey) as (e & He & Hin & Hplain).
  { rewrite str_split_on_length. lia. }
  exists e. split_and!; [|done..].
  apply process_row_not_built. by rewrite build_record_str.
Qed.

Lemma payee_row_never_stored_witness :
  exists e,
    process_row test_env (PyStr (py "Travel,Acme Inc"))
      [py "purpose"; py "payee"] empty_world = (Raise e, empty_world)
    /\ e ∈ cell_errors
    /\ (Forall (fun k => k ∉ rule_keys) (take 1 [py "purpose"; py "payee"])
        -> e = TypeError).
Proof.
  apply (payee_row_never_stored test_env empty_world (py "Travel,Acme Inc")
           [py "purpose"; py "payee"] 1 (py "payee")).
  - reflexivity.
  - apply (bool_decide_unpack _). by vm_compute.
  - vm_compute. lia.
Defined.

(** ** Every outcome of a run *)

Lemma normalize_column_names_from_Raise E acc header_row w e w' :
  normalize_column_names_from E acc header_row w = (Raise e, w') ->
  exists h,
    h ∈ header_row /\ ~ mapped h
    /\ e = SystemExit (error_output E (ErrKeyError h))
    /\ w' = logged (printed w (py "No matching entry for " ++ h))
              (error_output E (ErrKeyError h)).
Proof.
  revert acc. induction header_row as [|h header_row IH]; intros acc; [done|].
  cbn [normalize_column_names_from].
  destruct (dict_get expenditure_column_conversions h) as [c|] eqn:Hh.
  - intros (h' & Hin & H)%IH. exists h'. split; [by right|done].
  - intros [= <- <-]. exists h. split_and!; [by left| |done..].
    unfold mapped. rewrite Hh. by intros [? ?].
Qed.

(** The failures of the rows of one file, read from a header on. *)
Lemma process_rows_Raise E file reader column_names w e w' :
  process_rows E file reader column_names w = (Raise e, w') ->
  (e = AttributeError /\ w' = w
   /\ exists row, ReaderRow row ∈ reader
        /\ (column_names <> []
            \/ exists header,
                 ReaderRow header ∈ reader /\ header <> []
                 /\ Forall mapped header))
  \/ (ReaderRaise e ∈ reader /\ w' = w)
  \/ (exists header h,
        ReaderRow header ∈ reader /\ h ∈ header /\ ~ mapped h
        /\ e = SystemExit (error_output E (ErrKeyError h))
        /\ w' = logged (printed w (py "No matching entry for " ++ h))
                  (error_output E (ErrKeyError h)))
  \/ (exists e_repr line_num,
        ReaderError e_repr line_num ∈ reader
        /\ e = SystemExit (error_output E (ErrCsv e_repr file line_num))
        /\ w' = logged w (error_output E (ErrCsv e_repr file line_num))).
Proof.
  revert column_names w.
  induction reader as [|item reader IH]; intros column_names w; [done|].
  destruct item as [row|e_repr line_num|e0].
  - destruct column_names as [|c column_names].
    + cbn [process_rows]. unfold io_bind.
      destruct (normalize_column_names E row w) as [[names|e0] w1] eqn:Hrow.
      * apply normalize_column_names_Ok in Hrow as [-> Hnames].
        intros H. apply IH in H.
        destruct H as [(-> & -> & row' & Hin & Hcase)
                      |[[Hin ->]
                       |[(header & h & Hin & H)
                        |(e_repr & line_num & Hin & H)]]].
        -- left. split_and!; [done..|]. exists row'. split; [by right|].
           right. destruct Hcase as [Hne|(header & Hh & H)].
           ++ exists row. split_and!; [by left| |by eapply Forall2_mapped].
              intros ->. by apply Forall2_nil_inv_l in Hnames.
           ++ exists header. split; [by right|done].
        -- right. left. split; [by right|done].
        -- right. right. left. exists header, h. split; [by right|done].
        -- right. right. right. exists e_repr, line_num.
           split; [by right|done].
      * intros [= <- <-].
        apply normalize_column_names_from_Raise in Hrow as (h & Hin & H).
        right. right. left. exists row, h. split; [by left|done].
    + rewrite process_rows_data_row by done. intros [= <- <-].
      left. split_and!; [done..|]. exists row. split; [by left|by left].
  - cbn [process_rows]. rewrite log_error_and_exit_spec. intros [= <- <-].
    right. right. right. exists e_repr, line_num. split; [by left|done].
  - cbn [process_rows]. intros [= <- <-]. right. left. split; [by left|done].
Qed.

Lemma process_files_Raise E file_names w e w' :
  process_files E file_names w = (Raise e, w') ->
  run_failure E file_names w e w'.
Proof.
  revert w. induction file_names as [|file file_names IH]; intros w; [done|].
  cbn [process_files]. unfold io_bind, open_reader.
  destruct (files E (DATA_PATH ++ file)) as [reader|] eqn:Hfile.
  - cbn [io_ret].
    destruct (process_rows E file reader [] w) as [[[]|e0] w1] eqn:Hrows.
    + apply process_rows_Ok in Hrows as Hreader.
      rewrite (process_rows_header_only _ _ _ _ Hreader) in Hrows.
      injection Hrows as <-. intros H%IH.
      destruct H as [f ? ?|f r e0 ? ? ?|f r header row ? ? ? ? ? ?
                    |f r header h ? ? ? ? ?|f r e_repr line_num ? ? ?].
      * apply (fail_open _ _ _ f); [by right|done].
      * apply (fail_read _ _ _ f r e0); [by right|done..].
      * apply (fail_data_row _ _ _ f r header row); [by right|done..].
      * apply (fail_header _ _ _ f r header h); [by right|done..].
      * apply (fail_csv _ _ _ f r e_repr line_num); [by right|done..].
    + intros [= <- <-]. apply process_rows_Raise in Hrows.
      destruct Hrows as [(-> & -> & row & Hin & [?|(header & ? & ? & ?)])
                        |[[? ->]
                         |[(header & h & ? & ? & ? & -> & ->)
                          |(e_repr & line_num & ? & -> & ->)]]]; [done| | | |].
      * apply (fail_data_row _ _ _ file reader header row); [by left|done..].
      * apply (fail_read _ _ _ file reader e0); [by left|done..].
      * apply (fail_header _ _ _ file reader header h); [by left|done..].
      * apply (fail_csv _ _ _ file reader e_repr line_num); [by left|done..].
  - intros [= <- <-]. apply (fail_open _ _ _ file); [by left|done].
Qed.

(** X10: every outcome of a run, given that printing and the writing of
    the log do not fail.  [process_csvs] either prints its summary line
    and nothing else, or fails in one of five ways.  Three leave no
    trace on the output and in the log: a file that cannot be opened
    (the exception of [open]: [FileNotFoundError], [PermissionError],
    [IsADirectoryError]), an exception other than [csv.Error] raised
    while a file is read ([UnicodeDecodeError] for bytes that are not
    text), and a data row under a header ([AttributeError]).  Two end
    the run with [SystemExit] and the logged text: a header label
    without a mapping, which is printed and logged, and a [csv.Error],
    which is logged.  The summary line is never printed by a run that
    fails, and a failed run adds at most one entry to the log. *)
Theorem process_csvs_outcomes (E : env) (file_names : list str) (w : world) :
  match process_csvs E file_names w with
  | (Ok _, w') => w' = printed w (summary_line (length file_names))
  | (Raise e, w') =>
      run_failure E file_names w e w'
      /\ (w' = w
          \/ exists entry,
               e = SystemExit entry
               /\ log_file w' = log_file w ++ [entry]
               /\ (stdout w' = stdout w
                   \/ exists h, stdout w' = stdout w
                                  ++ [py "No matching entry for " ++ h]))
  end.
Proof.
  unfold process_csvs, io_bind.
  destruct (process_files E file_names w) as [[[]|e] w1] eqn:Hrun.
  - by apply process_files_Ok in Hrun as [-> _].
  - apply process_files_Raise in Hrun. split; [done|].
    destruct Hrun; [by left|by left|by left| |].
    + right. eexists. split_and!; [done..|]. right. by eexists.
    + right. eexists. split_and!; [done..|]. by left.
Qed.
